(** * transcribe_audio.py: the transcription-and-report pipeline

    A shallow embedding of [src/transcribe_audio.py].  The script talks to
    three collaborators: the filesystem ([os.path], [pathlib]), the
    process environment ([os.environ]) and the speech-recognition
    capability ([whisper]).  They are gathered in a [World] of oracles.
    Everything the script does that an operator can observe (console
    lines, capability calls, operations on the output file) is appended to
    a trace carried by the interpreter [State].

    Python functions become computations in the monad [Py], a state monad
    with exceptions; [try ... except Exception] becomes [try_except].

    Conventions of the model:
    - a Python [str] is a Rocq [string]; a Python [float] is a binary
      floating-point value of [SpecFloat.spec_float];
    - the filesystem may change while the script runs: every query of the
      script ([os.path.exists], [os.path.getsize], [Path.exists],
      [Path.glob]) reads the world at the current [clock] and advances it;
      the clock counts these queries, not the system calls each one makes;
    - path matching and the errors [pathlib] passes over follow the POSIX
      flavour of Python 3.11 (the case of names is not folded);
    - an exception raised by a collaborator is an instance of [Exception]
      (interpreter signals such as KeyboardInterrupt are not modelled);
    - the process is started with PATH in its environment, and writing to
      the console succeeds;
    - [write_report], [report_result] and [main] describe the script when
      the report file can be opened, written and closed; the same blocks
      over an [Output] that may refuse these operations are
      [write_report_io], [report_result_io] and [main_io]. *)

From Stdlib Require Import List String Ascii Bool Arith ZArith Lia Permutation.
From Stdlib Require Import DecimalString.
From Stdlib Require Import Floats.SpecFloat.
Import ListNotations.

Local Open Scope string_scope.

(** ** Python strings and formatting *)

Module PyStr.

(** The character [\n]. *)
Definition LF : string := String (ascii_of_nat 10) "".

(** [s * n] on strings. *)
Fixpoint mul (s : string) (n : nat) : string :=
  match n with
  | O => ""
  | S k => s ++ mul s k
  end.

(** [bool(s)]: a string is truthy unless it is empty. *)
Definition truthy (s : string) : bool :=
  match s with
  | "" => false
  | String _ _ => true
  end.

(** [needle in hay]: substring test. *)
Fixpoint contains (needle hay : string) : bool :=
  prefix needle hay ||
  match hay with
  | "" => false
  | String _ rest => contains needle rest
  end.

(** [str(n)] for a non-negative [int]. *)
Definition of_nat (n : nat) : string :=
  NilZero.string_of_uint (Nat.to_uint n).

(** [str(z)] for a non-negative [int] held as a [Z]. *)
Definition of_Z (z : Z) : string :=
  NilZero.string_of_uint (N.to_uint (Z.to_N z)).

(** Nearest integer to [n / d] for [d > 0], ties to the even neighbour. *)
Definition round_half_even (n d : Z) : Z :=
  let q := (n / d)%Z in
  let r := (n mod d)%Z in
  match (2 * r ?= d)%Z with
  | Lt => q
  | Gt => (q + 1)%Z
  | Eq => if Z.even q then q else (q + 1)%Z
  end.

(** The magnitude [m * 2^e] in hundredths, correctly rounded. *)
Definition hundredths (m : positive) (e : Z) : Z :=
  if (0 <=? e)%Z then (100 * Zpos m * 2 ^ e)%Z
  else round_half_even (100 * Zpos m) (2 ^ (- e)).

(** Two decimal digits of [0 <= z < 100]. *)
Definition two_digits (z : Z) : string :=
  of_Z (z / 10) ++ of_Z (z mod 10).

(** Sign, integer part, point, two decimals. *)
Definition fixed2 (negative : bool) (h : Z) : string :=
  (if negative then "-" else "") ++ of_Z (h / 100) ++ "." ++ two_digits (h mod 100).

(** [f"{x:.2f}"] on a float: fixed-point notation, two decimals, the
    value correctly rounded (ties to even); infinities and NaN print as
    words. *)
Definition format_2f (x : spec_float) : string :=
  match x with
  | S754_zero s => fixed2 s 0
  | S754_infinity s => if s then "-inf" else "inf"
  | S754_nan => "nan"
  | S754_finite s m e => fixed2 s (hundredths m e)
  end.

(** [fnmatch] on one path component, for patterns made of literal
    characters, [*] and [?] (bracket expressions do not occur in the
    script's patterns). *)
Fixpoint fnmatch (pat : string) : string -> bool :=
  match pat with
  | "" => fun name => match name with "" => true | _ => false end
  | String c p =>
      if Ascii.eqb c "*" then
        fix star (name : string) : bool :=
          fnmatch p name ||
          match name with
          | "" => false
          | String _ rest => star rest
          end
      else if Ascii.eqb c "?" then
        fun name => match name with
                    | "" => false
                    | String _ rest => fnmatch p rest
                    end
      else
        fun name => match name with
                    | "" => false
                    | String d rest => Ascii.eqb c d && fnmatch p rest
                    end
  end.

End PyStr.

(** ** Values exchanged with the collaborators *)

(** An exception instance: [type(e).__name__], [str(e)] and, for an error
    of the operating system, [e.errno]. *)
Record PyException := mkException {
  exc_type : string;
  exc_str : string;
  exc_errno : option nat
}.

(** [FileNotFoundError(msg)], as the script raises it: no errno. *)
Definition FileNotFoundError (msg : string) : PyException :=
  mkException "FileNotFoundError" msg None.

(** The classes an [except ValueError] clause catches: ValueError and
    its built-in subclasses. *)
Definition ValueError_classes : list string :=
  ["ValueError"; "UnicodeError"; "UnicodeEncodeError"; "UnicodeDecodeError";
   "UnicodeTranslateError"].

Definition is_ValueError (e : PyException) : bool :=
  existsb (String.eqb (exc_type e)) ValueError_classes.

(** ENOENT, ENOTDIR, EBADF and ELOOP: the errors [pathlib] takes for
    "there is no such path". *)
Definition ignored_errnos : list nat := [2; 20; 9; 40].

(** [pathlib._ignore_error(e)] *)
Definition pathlib_ignore_error (e : PyException) : bool :=
  match exc_errno e with
  | Some n => existsb (Nat.eqb n) ignored_errnos
  | None => false
  end.

(** One entry of [result['segments']]. *)
Record Segment := mkSegment {
  seg_start : spec_float;   (* segment['start'] *)
  seg_end : spec_float;     (* segment['end'] *)
  seg_text : string         (* segment['text'] *)
}.

(** The dict returned by [model.transcribe]: the key ['text'] is always
    there, ['language'] and ['segments'] may be missing.  Such a dict is
    never empty, hence truthy. *)
Record Result := mkResult {
  res_text : string;
  res_language : option string;
  res_segments : option (list Segment)
}.

(** [dict.get(key, default)] on an optional key. *)
Definition dict_get {A : Type} (field : option A) (default : A) : A :=
  match field with
  | Some v => v
  | None => default
  end.

(** A loaded model: its [transcribe] method, called with the audio path
    and, on the forced-language path only, the [language] keyword. *)
Record Model := mkModel {
  transcribe : string -> option string -> PyException + Result
}.

(** The collaborators of one run. *)
Record World := mkWorld {
  (* str(Path(__file__).parent / "ffmpeg-master-latest-win64-gpl" / "bin") *)
  ffmpeg_dir : string;
  (* os.pathsep *)
  pathsep : string;
  (* os.stat(path) at a given time: the size, or the OSError raised *)
  stat : nat -> string -> PyException + N;
  (* what a scan of the directory yields at a given time: the entry names,
     in the order the operating system gives them (none when the path is
     not a directory that can be listed) *)
  scandir : nat -> string -> list string;
  (* whisper.load_model(name) *)
  load_model : string -> PyException + Model
}.

(** ** Observable events *)

(** The console lines, one constructor per [print] of the script, holding
    the interpolated values. *)
Inductive Line :=
| AddedFfmpegToPath (ffmpeg_path : string)              (* line 22 *)
| FfmpegNotFound                                        (* line 25 *)
| LoadingWhisperModel (model_size : string)             (* line 45 *)
| Transcribing (audio_path : string)                    (* line 48 *)
| ErrorWithModel (model_size : string) (e : string)     (* line 59 *)
| ErrorType (name : string)                             (* line 60 *)
| NoAudioFilesFound                                     (* line 77 *)
| FoundAudioFiles (names : list string)                 (* line 80 *)
| Rule                                                  (* lines 81, 85, 99 *)
| TestingBaseModel                                      (* line 84 *)
| UsingAudioFile (audio_file : string)                  (* line 89 *)
| FileExists (b : bool)                                 (* line 90 *)
| FileSize (bytes : N)                                  (* line 91 *)
| BlankThenRule                                         (* line 97 *)
| TranscriptionSuccessful                               (* line 98 *)
| TextIs (t : string)                                   (* line 100 *)
| LanguageIs (l : string)                               (* line 101 *)
| SegmentsCount (n : nat)                               (* line 102 *)
| ResultsSavedTo (output_file : string)                 (* line 122 *)
| TranscriptionFailed.                                  (* line 124 *)

Inductive Event :=
| Console (l : Line)
| CallLoadModel (model_size : string)
| CallTranscribe (audio_path : string) (language : option string)
| FileOpenW (file : string)                   (* open(file, "w"): create or truncate *)
| FileWrite (file : string) (chunk : string)  (* f.write(chunk) *)
| FileClose (file : string).

(** ** Interpreter state and the monad of Python computations *)

Record State := mkState {
  clock : nat;               (* number of filesystem queries made so far *)
  environ_PATH : string;     (* os.environ['PATH'] *)
  trace : list Event         (* everything observable, oldest first *)
}.

Inductive Outcome (A : Type) :=
| Returned (a : A)
| Raised (e : PyException).

Arguments Returned {A} a.
Arguments Raised {A} e.

Definition Py (A : Type) : Type := State -> Outcome A * State.

Definition ret {A : Type} (a : A) : Py A := fun s => (Returned a, s).

Definition bind {A B : Type} (c : Py A) (k : A -> Py B) : Py B :=
  fun s =>
    match c s with
    | (Returned a, s') => k a s'
    | (Raised e, s') => (Raised e, s')
    end.

Definition raise {A : Type} (e : PyException) : Py A := fun s => (Raised e, s).

(** [try: body  except Exception as e: handler(e)] *)
Definition try_except {A : Type} (body : Py A) (handler : PyException -> Py A) : Py A :=
  fun s =>
    match body s with
    | (Returned a, s') => (Returned a, s')
    | (Raised e, s') => handler e s'
    end.

Declare Scope py_scope.
Delimit Scope py_scope with py.
Notation "x <- c ;; k" := (bind c (fun x => k))
  (at level 61, c at next level, right associativity) : py_scope.
Notation "c ;; k" := (bind c (fun _ => k))
  (at level 61, right associativity) : py_scope.
Local Open Scope py_scope.

Definition emit (ev : Event) : Py unit :=
  fun s => (Returned tt, mkState (clock s) (environ_PATH s) (trace s ++ [ev])).

Definition print (l : Line) : Py unit := emit (Console l).

Definition tick (s : State) : State :=
  mkState (S (clock s)) (environ_PATH s) (trace s).

(** [os.environ['PATH']], read; PATH is in the environment. *)
Definition get_PATH : Py string := fun s => (Returned (environ_PATH s), s).

Definition set_PATH (v : string) : Py unit :=
  fun s => (Returned tt, mkState (clock s) v (trace s)).

(** [for i, x in enumerate(xs): body(i, x)], counting from [i]. *)
Fixpoint for_enumerate {A : Type} (i : nat) (xs : list A) (body : nat -> A -> Py unit)
  : Py unit :=
  match xs with
  | [] => ret tt
  | x :: rest => body i x ;; for_enumerate (S i) rest body
  end.

(** ** The collaborators as computations *)

Section Program.

Variable w : World.

(** [os.path.exists(path)]: whether [os.stat] succeeds; every error counts
    as "no". *)
Definition os_path_exists (path : string) : Py bool :=
  fun s =>
    (Returned (match stat w (clock s) path with inr _ => true | inl _ => false end),
     tick s).

(** [Path.exists()]: whether [os.stat] succeeds; the errors that do not
    mean "no such path" are raised again, a ValueError (a path that
    cannot be encoded) counts as "no". *)
Definition Path_exists (path : string) : Py bool :=
  fun s =>
    (match stat w (clock s) path with
     | inr _ => Returned true
     | inl e =>
         if pathlib_ignore_error e || is_ValueError e
         then Returned false
         else Raised e
     end, tick s).

(** [os.path.getsize(path)]: [os.stat(path).st_size]; the OSError
    propagates. *)
Definition os_path_getsize (path : string) : Py N :=
  fun s =>
    (match stat w (clock s) path with
     | inr size => Returned size
     | inl e => Raised e
     end, tick s).

(** [Path('.').glob(pattern)] for a pattern of one component: the
    entries of the directory itself whose name matches, in [scandir]
    order; [scandir w t "."] is the listing the glob reads at time [t],
    with no entry when the directory is gone or may not be read.
    [str(Path('.') / name)] is [name]. *)
Definition Path_glob (pattern : string) : Py (list string) :=
  fun s =>
    (Returned (filter (PyStr.fnmatch pattern) (scandir w (clock s) ".")), tick s).

(** [whisper.load_model(model_size)] *)
Definition whisper_load_model (model_size : string) : Py Model :=
  emit (CallLoadModel model_size) ;;
  match load_model w model_size with
  | inr model => ret model
  | inl e => raise e
  end.

(** [model.transcribe(audio_path)] when [language] is [None],
    [model.transcribe(audio_path, language=l)] when it is [Some l]. *)
Definition model_transcribe (model : Model) (audio_path : string)
           (language : option string) : Py Result :=
  emit (CallTranscribe audio_path language) ;;
  match transcribe model audio_path language with
  | inr result => ret result
  | inl e => raise e
  end.

(** ** The script *)

(** Lines 13-26. *)
Definition setup_ffmpeg : Py bool :=
  found <- Path_exists (ffmpeg_dir w) ;;
  if found then
    let ffmpeg_path := ffmpeg_dir w in
    path <- get_PATH ;;
    (if negb (PyStr.contains ffmpeg_path path) then
       set_PATH (ffmpeg_path ++ pathsep w ++ path) ;;
       print (AddedFfmpegToPath ffmpeg_path)
     else ret tt) ;;
    ret true
  else
    print FfmpegNotFound ;;
    ret false.

(** [if language:] on an argument that is [None] or a [str]. *)
Definition language_truthy (language : option string) : bool :=
  match language with
  | Some l => PyStr.truthy l
  | None => false
  end.

(** Lines 28-61. *)
Definition transcribe_audio (audio_path model_size : string)
           (language : option string) : Py (option Result) :=
  try_except
    (found <- os_path_exists audio_path ;;
     (if negb found then
        raise (FileNotFoundError ("Audio file not found: " ++ audio_path))
      else ret tt) ;;
     print (LoadingWhisperModel model_size) ;;
     model <- whisper_load_model model_size ;;
     print (Transcribing audio_path) ;;
     result <- (if language_truthy language
                then model_transcribe model audio_path language
                else model_transcribe model audio_path None) ;;
     ret (Some result))
    (fun e =>
       print (ErrorWithModel model_size (exc_str e)) ;;
       print (ErrorType (exc_type e)) ;;
       ret None).

(** Line 70. *)
Definition audio_extensions : list string :=
  [".mp3"; ".wav"; ".m4a"; ".flac"; ".ogg"].

(** Lines 73-74, the loop [for ext in exts: audio_files.extend(...)]. *)
Fixpoint extend_audio_files (exts : list string) (audio_files : list string)
  : Py (list string) :=
  match exts with
  | [] => ret audio_files
  | ext :: rest =>
      found <- Path_glob ("*" ++ ext) ;;
      extend_audio_files rest (audio_files ++ found)
  end.

(** Lines 70-74: the discovery of the candidate inputs. *)
Definition discover_audio_files : Py (list string) :=
  extend_audio_files audio_extensions [].

(** Line 105. *)
Definition output_file : string := "whisper_transcript.txt".

(** Lines 117-120: the body of the loop over the segments. *)
Definition write_segment (f : string) (i : nat) (segment : Segment) : Py unit :=
  emit (FileWrite f (PyStr.LF ++ "Segment " ++ PyStr.of_nat (i + 1) ++ ":" ++ PyStr.LF)) ;;
  emit (FileWrite f ("  Start: " ++ PyStr.format_2f (seg_start segment) ++ "s" ++ PyStr.LF)) ;;
  emit (FileWrite f ("  End: " ++ PyStr.format_2f (seg_end segment) ++ "s" ++ PyStr.LF)) ;;
  emit (FileWrite f ("  Text: " ++ seg_text segment ++ PyStr.LF)).

(** Lines 105-120: the [with open(...)] block that saves the report. *)
Definition write_report (audio_file : string) (result : Result) : Py unit :=
  let f := output_file in
  emit (FileOpenW f) ;;
  emit (FileWrite f ("WHISPER TRANSCRIPTION RESULTS" ++ PyStr.LF)) ;;
  emit (FileWrite f (PyStr.mul "=" 50 ++ PyStr.LF)) ;;
  emit (FileWrite f ("Audio file: " ++ audio_file ++ PyStr.LF)) ;;
  emit (FileWrite f ("Model: base" ++ PyStr.LF)) ;;
  emit (FileWrite f ("Language: " ++ dict_get (res_language result) "Unknown" ++ PyStr.LF)) ;;
  emit (FileWrite f ("Text: " ++ res_text result ++ PyStr.LF)) ;;
  match res_segments result with
  | Some segs =>
      emit (FileWrite f (PyStr.LF ++ "Detailed segments:" ++ PyStr.LF)) ;;
      for_enumerate 0 segs (write_segment f)
  | None => ret tt
  end ;;
  emit (FileClose f).

(** Lines 63-124. *)
Definition main : Py unit :=
  ok <- setup_ffmpeg ;;
  if negb ok then ret tt
  else
    audio_files <- discover_audio_files ;;
    match audio_files with
    | [] => print NoAudioFilesFound
    | first :: _ =>
        print (FoundAudioFiles audio_files) ;;
        print Rule ;;
        print TestingBaseModel ;;
        print Rule ;;
        let audio_file := first in
        print (UsingAudioFile audio_file) ;;
        found <- os_path_exists audio_file ;;
        print (FileExists found) ;;
        size <- os_path_getsize audio_file ;;
        print (FileSize size) ;;
        result <- transcribe_audio audio_file "base" None ;;
        match result with
        | Some r =>
            print BlankThenRule ;;
            print TranscriptionSuccessful ;;
            print Rule ;;
            print (TextIs (res_text r)) ;;
            print (LanguageIs (dict_get (res_language r) "Unknown")) ;;
            print (SegmentsCount (List.length (dict_get (res_segments r) []))) ;;
            write_report audio_file r ;;
            print (ResultsSavedTo output_file)
        | None => print TranscriptionFailed
        end
    end.

End Program.


(** ** The blocks of [main]

    [main] does three things in sequence; the two around the call of
    [transcribe_audio] are named here so that statements can refer to the
    state in which the transcription starts ([main_blocks] below shows
    that [main] is their composition). *)

(** Lines 65-91: everything before the call of [transcribe_audio]; the
    selected audio file, or [None] when [main] has returned early. *)
Definition select_input (w : World) : Py (option string) :=
  ok <- setup_ffmpeg w ;;
  if negb ok then ret None
  else
    audio_files <- discover_audio_files w ;;
    match audio_files with
    | [] => print NoAudioFilesFound ;; ret None
    | first :: _ =>
        print (FoundAudioFiles audio_files) ;;
        print Rule ;;
        print TestingBaseModel ;;
        print Rule ;;
        print (UsingAudioFile first) ;;
        found <- os_path_exists w first ;;
        print (FileExists found) ;;
        size <- os_path_getsize w first ;;
        print (FileSize size) ;;
        ret (Some first)
    end.

(** Lines 96-124: what [main] does with the value of [transcribe_audio]. *)
Definition report_result (audio_file : string) (result : option Result) : Py unit :=
  match result with
  | Some r =>
      print BlankThenRule ;;
      print TranscriptionSuccessful ;;
      print Rule ;;
      print (TextIs (res_text r)) ;;
      print (LanguageIs (dict_get (res_language r) "Unknown")) ;;
      print (SegmentsCount (List.length (dict_get (res_segments r) []))) ;;
      write_report audio_file r ;;
      print (ResultsSavedTo output_file)
  | None => print TranscriptionFailed
  end.

(** ** Observations on a run *)

(** The state in which the process starts. *)
Definition initial_state (path : string) : State := mkState 0 path [].

(** The events a computation adds when started in [s]. *)
Definition events_of {A : Type} (c : Py A) (s : State) : list Event :=
  skipn (List.length (trace s)) (trace (snd (c s))).

Definition is_file_event (ev : Event) : bool :=
  match ev with
  | FileOpenW _ | FileWrite _ _ | FileClose _ => true
  | _ => false
  end.

(** The operations on files, in order. *)
Definition file_events (tr : list Event) : list Event := filter is_file_event tr.

(** The chunks passed to [f.write] for [file], in order. *)
Fixpoint written_chunks (file : string) (tr : list Event) : list string :=
  match tr with
  | [] => []
  | FileWrite f chunk :: rest =>
      if (f =? file)%string then chunk :: written_chunks file rest
      else written_chunks file rest
  | _ :: rest => written_chunks file rest
  end.

(** The contents of [file] after the events [tr], starting from [before]
    ([None]: the file does not exist).  Opening for writing creates or
    truncates; writing appends. *)
Fixpoint file_content (file : string) (before : option string) (tr : list Event)
  : option string :=
  match tr with
  | [] => before
  | FileOpenW f :: rest =>
      file_content file (if (f =? file)%string then Some "" else before) rest
  | FileWrite f chunk :: rest =>
      file_content file
        (if (f =? file)%string then option_map (fun text => text ++ chunk) before
         else before) rest
  | _ :: rest => file_content file before rest
  end.

(** The [model.transcribe] calls, in order. *)
Fixpoint transcribe_calls (tr : list Event) : list (string * option string) :=
  match tr with
  | [] => []
  | CallTranscribe audio language :: rest => (audio, language) :: transcribe_calls rest
  | _ :: rest => transcribe_calls rest
  end.

(** The console lines, in order. *)
Fixpoint console (tr : list Event) : list Line :=
  match tr with
  | [] => []
  | Console l :: rest => l :: console rest
  | _ :: rest => console rest
  end.

(** The report as text: what [whisper_transcript.txt] holds after the
    [with open(...)] block has run for an audio file and a result. *)
Definition report_text (audio_file : string) (result : Result) : string :=
  String.concat ""
    (written_chunks output_file (events_of (write_report audio_file result) (initial_state ""))).

(** What the speech-recognition capability answers to [transcribe_audio]:
    the model is loaded, then asked to transcribe, with the language the
    call passes ([None]: the parameter is left out). *)
Definition capability (w : World) (audio_path model_size : string)
           (passed : option string) : PyException + Result :=
  match load_model w model_size with
  | inl e => inl e
  | inr model => transcribe model audio_path passed
  end.

(** The language [transcribe_audio] hands to [model.transcribe] (lines
    51-54): the argument when it is truthy, no parameter otherwise. *)
Definition passed_language (language : option string) : option string :=
  if language_truthy language then language else None.

(** The [whisper.load_model] calls, in order. *)
Fixpoint load_calls (tr : list Event) : list string :=
  match tr with
  | [] => []
  | CallLoadModel model_size :: rest => model_size :: load_calls rest
  | _ :: rest => load_calls rest
  end.

(** The transcription of a run, read off its trace: the audio file of the
    first [model.transcribe] call and the result the capability gave it;
    [None] when the capability was not reached or raised. *)
Definition run_result (w : World) (tr : list Event) : option (string * Result) :=
  match load_calls tr, transcribe_calls tr with
  | model_size :: _, (audio_path, passed) :: _ =>
      match capability w audio_path model_size passed with
      | inr result => Some (audio_path, result)
      | inl _ => None
      end
  | _, _ => None
  end.

(** [s] after [ticks] filesystem queries and the events [evs]. *)
Definition extended (s : State) (ticks : nat) (evs : list Event) : State :=
  mkState (ticks + clock s) (environ_PATH s) (trace s ++ evs).

(** A computation that only appends the events [evs]. *)
Definition emits (c : Py unit) (evs : list Event) : Prop :=
  forall s, c s = (Returned tt, mkState (clock s) (environ_PATH s) (trace s ++ evs)).

(** ** The report format, as the specification words it *)

(** Fixed header, echoed audio path and model size, detected language
    (or the fallback), full text: one line each. *)
Definition report_head (audio_file : string) (result : Result) : list string :=
  [ "WHISPER TRANSCRIPTION RESULTS" ++ PyStr.LF;
    PyStr.mul "=" 50 ++ PyStr.LF;
    "Audio file: " ++ audio_file ++ PyStr.LF;
    "Model: base" ++ PyStr.LF;
    "Language: " ++ dict_get (res_language result) "Unknown" ++ PyStr.LF;
    "Text: " ++ res_text result ++ PyStr.LF ].

(** The line that opens the segments block, after a blank line. *)
Definition segments_header : string := PyStr.LF ++ "Detailed segments:" ++ PyStr.LF.

(** The entry of the segment of a given ordinal: ordinal, start and end
    with two decimals, text. *)
Definition segment_entry (ordinal : nat) (segment : Segment) : list string :=
  [ PyStr.LF ++ "Segment " ++ PyStr.of_nat ordinal ++ ":" ++ PyStr.LF;
    "  Start: " ++ PyStr.format_2f (seg_start segment) ++ "s" ++ PyStr.LF;
    "  End: " ++ PyStr.format_2f (seg_end segment) ++ "s" ++ PyStr.LF;
    "  Text: " ++ seg_text segment ++ PyStr.LF ].

(** The entries of consecutive segments, the first with [ordinal]. *)
Fixpoint segment_entries (ordinal : nat) (segs : list Segment) : list string :=
  match segs with
  | [] => []
  | segment :: rest => segment_entry ordinal segment ++ segment_entries (S ordinal) rest
  end.

(** The pieces of a report, in order. *)
Definition report_chunks (audio_file : string) (result : Result) : list string :=
  report_head audio_file result ++
  match res_segments result with
  | Some segs => segments_header :: segment_entries 1 segs
  | None => []
  end.

(** Saving a report: the file is opened, receives the pieces, is closed. *)
Definition report_events (audio_file : string) (result : Result) : list Event :=
  FileOpenW output_file :: map (FileWrite output_file) (report_chunks audio_file result)
  ++ [FileClose output_file].

(** What the five [glob] calls of the discovery gather when the first one
    is made at time [t]: for each extension in turn, the entries of the
    directory at that time whose name matches. *)
Fixpoint scans (w : World) (t : nat) (exts : list string) : list string :=
  match exts with
  | [] => []
  | ext :: rest =>
      filter (PyStr.fnmatch ("*" ++ ext)) (scandir w t ".") ++ scans w (S t) rest
  end.

(** The claim that the call hands over the hint as it was given: every
    [model.transcribe] call of [transcribe_audio] carries the language
    argument when there is one and no language parameter when there is
    none. *)
Definition passes_hint_as_given (w : World) (audio_path model_size : string)
           (language : option string) (s : State) : Prop :=
  forall audio passed,
    In (audio, passed)
       (transcribe_calls (events_of (transcribe_audio w audio_path model_size language) s)) ->
    passed = language.

(** ** Sample worlds *)

(** The OSError of a path that does not exist (ENOENT). *)
Definition no_such_file : PyException :=
  mkException "FileNotFoundError" "[Errno 2] No such file or directory" (Some 2).

Definition out_of_memory : PyException :=
  mkException "RuntimeError" "out of memory" None.

(** The float [2.5]. *)
Definition two_and_a_half : spec_float := S754_finite false 5629499534213120 (-51).

Definition hello_result : Result :=
  mkResult "hello" (Some "en") (Some [mkSegment (S754_zero false) two_and_a_half "hello"]).

Definition hello_model : Model := mkModel (fun _ _ => inr hello_result).

(** A directory that does not change, every path present, a working
    capability. *)
Definition steady_world (listing : list string) : World :=
  mkWorld "/opt/ffmpeg/bin" ":" (fun _ _ => inr 2048%N) (fun _ _ => listing)
          (fun _ => inr hello_model).

(** As [steady_world], but every path is gone from the ninth filesystem
    query on: the selected file vanishes between the size probe of [main]
    and the existence check of [transcribe_audio]. *)
Definition vanishing_world : World :=
  mkWorld "/opt/ffmpeg/bin" ":"
          (fun t _ => if (t <? 8)%nat then inr 2048%N else inl no_such_file)
          (fun _ _ => ["a.mp3"]) (fun _ => inr hello_model).

(** The only candidate is a dangling symbolic link: listed by the
    directory, but [os.stat] fails on it. *)
Definition dangling_world : World :=
  mkWorld "/opt/ffmpeg/bin" ":"
          (fun _ path => if (path =? "ghost.mp3")%string then inl no_such_file
                         else inr 2048%N)
          (fun _ _ => ["ghost.mp3"]) (fun _ => inr hello_model).

(** The model cannot be loaded. *)
Definition failing_world : World :=
  mkWorld "/opt/ffmpeg/bin" ":" (fun _ _ => inr 2048%N) (fun _ _ => ["a.mp3"])
          (fun _ => inl out_of_memory).





(** A result without the ['segments'] key. *)
Definition bare_result : Result := mkResult "hello" None None.

Definition bare_world : World :=
  mkWorld "/opt/ffmpeg/bin" ":" (fun _ _ => inr 2048%N) (fun _ _ => ["a.mp3"])
          (fun _ => inr (mkModel (fun _ _ => inr bare_result))).

(** A result whose ['segments'] list is there and empty. *)
Definition silent_result : Result := mkResult "" (Some "en") (Some []).

Definition silent_world : World :=
  mkWorld "/opt/ffmpeg/bin" ":" (fun _ _ => inr 2048%N) (fun _ _ => ["a.mp3"])
          (fun _ => inr (mkModel (fun _ _ => inr silent_result))).

(** The claim that the header is there whenever the result carries zero
    segments, as the script counts them at line 102. *)
Definition header_whenever_no_segment (audio_file : string) (result : Result) (s : State)
  : Prop :=
  List.length (dict_get (res_segments result) []) = 0 ->
  In segments_header
     (written_chunks output_file (events_of (write_report audio_file result) s)).

(** [name] ends with [ext], character for character. *)
Definition ends_with (ext name : string) : Prop := exists stem, name = stem ++ ext.

(** The name matches one of the patterns of the allow-list. *)
Definition has_audio_extension (name : string) : bool :=
  existsb (fun ext => PyStr.fnmatch ("*" ++ ext) name) audio_extensions.

(** The claim that the candidates come in the enumeration order of the
    directory: the discovered sequence is the enumeration, restricted to
    the names of the allow-list. *)
Definition in_enumeration_order (listing found : list string) : Prop :=
  found = filter has_audio_extension listing.

(** A pattern without wildcard. *)
Fixpoint literal (pat : string) : bool :=
  match pat with
  | "" => true
  | String c rest => negb (Ascii.eqb c "*") && negb (Ascii.eqb c "?") && literal rest
  end.

(** No element passes the tests of two keys of the list. *)
Definition disjoint_tests {A K : Type} (test : K -> A -> bool) (keys : list K) : Prop :=
  forall k1 k2 x,
    In k1 keys -> In k2 keys -> test k1 x = true -> test k2 x = true -> k1 = k2.

(** No decoder: the ffmpeg directory does not exist. *)
Definition no_decoder_world : World :=
  mkWorld "/opt/ffmpeg/bin" ":" (fun _ _ => inl no_such_file) (fun _ _ => ["a.mp3"])
          (fun _ => inr hello_model).

(** ** The report file, over an output that may refuse *)

(** What the operating system answers to the operations on a file opened
    for writing: [None] when the operation is carried out, or the error
    it raises. *)
Record Output := mkOutput {
  (* open(file, "w", encoding="utf-8") *)
  open_error : string -> option PyException;
  (* f.write(chunk) *)
  write_error : string -> string -> option PyException;
  (* f.close(), when the with block is left *)
  close_error : string -> option PyException
}.

Definition file_open (o : Output) (file : string) : Py unit :=
  match open_error o file with
  | None => emit (FileOpenW file)
  | Some e => raise e
  end.

Definition file_write (o : Output) (file chunk : string) : Py unit :=
  match write_error o file chunk with
  | None => emit (FileWrite file chunk)
  | Some e => raise e
  end.

Definition file_close (o : Output) (file : string) : Py unit :=
  match close_error o file with
  | None => emit (FileClose file)
  | Some e => raise e
  end.

(** [with open(file, "w", encoding="utf-8") as f: body]: the file is closed
    when the body ends, also when it ends by an error; that error is then
    raised again, unless closing raises one of its own. *)
Definition with_open (o : Output) (file : string) (body : Py unit) : Py unit :=
  file_open o file ;;
  fun s =>
    match body s with
    | (Returned _, s1) => file_close o file s1
    | (Raised e, s1) =>
        match file_close o file s1 with
        | (Returned _, s2) => (Raised e, s2)
        | (Raised e', s2) => (Raised e', s2)
        end
    end.

(** Lines 117-120. *)
Definition write_segment_io (o : Output) (f : string) (i : nat) (segment : Segment)
  : Py unit :=
  file_write o f (PyStr.LF ++ "Segment " ++ PyStr.of_nat (i + 1) ++ ":" ++ PyStr.LF) ;;
  file_write o f ("  Start: " ++ PyStr.format_2f (seg_start segment) ++ "s" ++ PyStr.LF) ;;
  file_write o f ("  End: " ++ PyStr.format_2f (seg_end segment) ++ "s" ++ PyStr.LF) ;;
  file_write o f ("  Text: " ++ seg_text segment ++ PyStr.LF).

(** Lines 105-120. *)
Definition write_report_io (o : Output) (audio_file : string) (result : Result)
  : Py unit :=
  let f := output_file in
  with_open o f
    (file_write o f ("WHISPER TRANSCRIPTION RESULTS" ++ PyStr.LF) ;;
     file_write o f (PyStr.mul "=" 50 ++ PyStr.LF) ;;
     file_write o f ("Audio file: " ++ audio_file ++ PyStr.LF) ;;
     file_write o f ("Model: base" ++ PyStr.LF) ;;
     file_write o f ("Language: " ++ dict_get (res_language result) "Unknown" ++ PyStr.LF) ;;
     file_write o f ("Text: " ++ res_text result ++ PyStr.LF) ;;
     match res_segments result with
     | Some segs =>
         file_write o f (PyStr.LF ++ "Detailed segments:" ++ PyStr.LF) ;;
         for_enumerate 0 segs (write_segment_io o f)
     | None => ret tt
     end).

(** Lines 96-124. *)
Definition report_result_io (o : Output) (audio_file : string) (result : option Result)
  : Py unit :=
  match result with
  | Some r =>
      print BlankThenRule ;;
      print TranscriptionSuccessful ;;
      print Rule ;;
      print (TextIs (res_text r)) ;;
      print (LanguageIs (dict_get (res_language r) "Unknown")) ;;
      print (SegmentsCount (List.length (dict_get (res_segments r) []))) ;;
      write_report_io o audio_file r ;;
      print (ResultsSavedTo output_file)
  | None => print TranscriptionFailed
  end.

(** Lines 63-124. *)
Definition main_io (o : Output) (w : World) : Py unit :=
  ok <- setup_ffmpeg w ;;
  if negb ok then ret tt
  else
    audio_files <- discover_audio_files w ;;
    match audio_files with
    | [] => print NoAudioFilesFound
    | first :: _ =>
        print (FoundAudioFiles audio_files) ;;
        print Rule ;;
        print TestingBaseModel ;;
        print Rule ;;
        let audio_file := first in
        print (UsingAudioFile audio_file) ;;
        found <- os_path_exists w audio_file ;;
        print (FileExists found) ;;
        size <- os_path_getsize w audio_file ;;
        print (FileSize size) ;;
        result <- transcribe_audio w audio_file "base" None ;;
        report_result_io o audio_file result
    end.

(** Writing pieces to a file one after the other. *)
Fixpoint write_all (o : Output) (f : string) (chunks : list string) : Py unit :=
  match chunks with
  | [] => ret tt
  | chunk :: rest => file_write o f chunk ;; write_all o f rest
  end.

(** The pieces written before the output refuses one. *)
Fixpoint accepted (o : Output) (f : string) (chunks : list string) : list string :=
  match chunks with
  | [] => []
  | chunk :: rest =>
      match write_error o f chunk with
      | None => chunk :: accepted o f rest
      | Some _ => []
      end
  end.

(** The error of the first piece the output refuses. *)
Fixpoint first_refusal (o : Output) (f : string) (chunks : list string)
  : option PyException :=
  match chunks with
  | [] => None
  | chunk :: rest =>
      match write_error o f chunk with
      | None => first_refusal o f rest
      | Some e => Some e
      end
  end.



(** An output that refuses nothing. *)
Definition willing_output : Output :=
  mkOutput (fun _ => None) (fun _ _ => None) (fun _ => None).

Definition permission_denied : PyException :=
  mkException "PermissionError" "[Errno 13] Permission denied" (Some 13).


(** The report file cannot be opened for writing. *)
Definition locked_output : Output :=
  mkOutput (fun _ => Some permission_denied) (fun _ _ => None) (fun _ => None).


(** The ffmpeg directory cannot be examined. *)
Definition forbidden_world : World :=
  mkWorld "/opt/ffmpeg/bin" ":" (fun _ _ => inl permission_denied) (fun _ _ => ["a.mp3"])
          (fun _ => inr hello_model).

(** What [main] prints about a result before it opens the report file
    (lines 97-102). *)
Definition success_lines (r : Result) : list Line :=
  [BlankThenRule; TranscriptionSuccessful; Rule; TextIs (res_text r);
   LanguageIs (dict_get (res_language r) "Unknown");
   SegmentsCount (List.length (dict_get (res_segments r) []))].

(* ================================================================== *)
(** * Properties *)

(** ** Running computations *)

Ltac run :=
  unfold bind, ret, raise, try_except, print, emit, get_PATH, set_PATH,
    os_path_exists, Path_exists, os_path_getsize, Path_glob, whisper_load_model,
    model_transcribe, tick, extended; simpl.

Ltac flatten_trace := repeat rewrite <- app_assoc; simpl.

Lemma bind_run {A B} (c : Py A) (k : A -> Py B) s :
  bind c k s =
  match c s with
  | (Returned a, s') => k a s'
  | (Raised e, s') => (Raised e, s')
  end.
Proof. reflexivity. Qed.

Lemma bind_assoc {A B C} (c : Py A) (k : A -> Py B) (h : B -> Py C) s :
  bind (bind c k) h s = bind c (fun a => bind (k a) h) s.
Proof. unfold bind. destruct (c s) as [[a|e] s']; reflexivity. Qed.

Lemma skipn_length_app {A} (l r : list A) : skipn (List.length l) (l ++ r) = r.
Proof. induction l as [|x l IH]; simpl; auto. Qed.

Lemma events_of_extended {A} (c : Py A) s n evs :
  snd (c s) = extended s n evs -> events_of c s = evs.
Proof. intro H. unfold events_of. rewrite H. simpl. apply skipn_length_app. Qed.

Lemma emits_events_of c evs s : emits c evs -> events_of c s = evs.
Proof. intro H. unfold events_of. rewrite H. simpl. apply skipn_length_app. Qed.

Lemma emits_emit ev : emits (emit ev) [ev].
Proof. intro s. reflexivity. Qed.

Lemma emits_ret : emits (ret tt) [].
Proof. intro s. unfold ret. rewrite app_nil_r. destruct s; reflexivity. Qed.

Lemma emits_seq c1 c2 evs1 evs2 :
  emits c1 evs1 -> emits c2 evs2 -> emits (c1 ;; c2) (evs1 ++ evs2).
Proof.
  intros H1 H2 s. unfold bind. rewrite H1, H2. simpl. now rewrite app_assoc.
Qed.

Lemma emits_cons ev c evs : emits c evs -> emits (emit ev ;; c) (ev :: evs).
Proof.
  intro H. apply (emits_seq (emit ev) c [ev] evs); [apply emits_emit | exact H].
Qed.

(** ** The blocks of [main] *)

Lemma main_blocks w s :
  main w s =
  (sel <- select_input w ;;
   match sel with
   | None => ret tt
   | Some audio_file =>
       result <- transcribe_audio w audio_file "base" None ;;
       report_result audio_file result
   end) s.
Proof.
  unfold main, select_input.
  rewrite bind_assoc, !bind_run.
  destruct (setup_ffmpeg w s) as [[ok|e] s1]; [|reflexivity].
  destruct ok; simpl; [|reflexivity].
  rewrite bind_assoc, !bind_run.
  destruct (discover_audio_files w s1) as [[l|e] s2]; [|reflexivity].
  destruct l as [|first rest].
  - reflexivity.
  - unfold bind, print, emit, ret, os_path_exists, os_path_getsize; simpl.
    destruct (stat w (S (clock s2)) first); reflexivity.
Qed.

(** ** Saving the report *)

Lemma write_segment_emits f i segment :
  emits (write_segment f i segment) (map (FileWrite f) (segment_entry (i + 1) segment)).
Proof. intro s. unfold write_segment. run. flatten_trace. reflexivity. Qed.

Lemma for_enumerate_emits f segs : forall i,
  emits (for_enumerate i segs (write_segment f))
        (map (FileWrite f) (segment_entries (i + 1) segs)).
Proof.
  induction segs as [|segment rest IH]; intro i.
  - apply emits_ret.
  - change (segment_entries (i + 1) (segment :: rest))
      with (segment_entry (i + 1) segment ++ segment_entries (S (i + 1)) rest)%list.
    rewrite map_app. apply emits_seq.
    + apply write_segment_emits.
    + exact (IH (S i)).
Qed.

Lemma write_report_emits audio_file result :
  emits (write_report audio_file result) (report_events audio_file result).
Proof.
  unfold write_report, report_events, report_chunks, report_head.
  rewrite map_app. cbn [map app].
  do 7 apply emits_cons.
  apply emits_seq; [|apply emits_emit].
  destruct (res_segments result) as [segs|].
  - cbn [map]. apply emits_cons. apply (for_enumerate_emits output_file segs 0).
  - apply emits_ret.
Qed.

Lemma report_result_some audio_file r :
  emits (report_result audio_file (Some r))
        ([Console BlankThenRule; Console TranscriptionSuccessful; Console Rule;
          Console (TextIs (res_text r));
          Console (LanguageIs (dict_get (res_language r) "Unknown"));
          Console (SegmentsCount (List.length (dict_get (res_segments r) [])))]
         ++ report_events audio_file r ++ [Console (ResultsSavedTo output_file)]).
Proof.
  unfold report_result, print. cbn [app].
  do 6 apply emits_cons.
  apply emits_seq; [apply write_report_emits | apply emits_emit].
Qed.

Lemma report_result_none audio_file :
  emits (report_result audio_file None) [Console TranscriptionFailed].
Proof. apply emits_emit. Qed.

(** ** [transcribe_audio], case by case *)

Lemma transcribe_audio_run w audio_path model_size language s :
  transcribe_audio w audio_path model_size language s =
  match stat w (clock s) audio_path with
  | inl _ =>
      (Returned None,
       extended s 1
         [Console (ErrorWithModel model_size ("Audio file not found: " ++ audio_path));
          Console (ErrorType "FileNotFoundError")])
  | inr _ =>
      match load_model w model_size with
      | inl e =>
          (Returned None,
           extended s 1
             [Console (LoadingWhisperModel model_size); CallLoadModel model_size;
              Console (ErrorWithModel model_size (exc_str e));
              Console (ErrorType (exc_type e))])
      | inr model =>
          match transcribe model audio_path (passed_language language) with
          | inl e =>
              (Returned None,
               extended s 1
                 [Console (LoadingWhisperModel model_size); CallLoadModel model_size;
                  Console (Transcribing audio_path);
                  CallTranscribe audio_path (passed_language language);
                  Console (ErrorWithModel model_size (exc_str e));
                  Console (ErrorType (exc_type e))])
          | inr result =>
              (Returned (Some result),
               extended s 1
                 [Console (LoadingWhisperModel model_size); CallLoadModel model_size;
                  Console (Transcribing audio_path);
                  CallTranscribe audio_path (passed_language language)])
          end
      end
  end.
Proof.
  unfold transcribe_audio, passed_language. run.
  destruct (stat w (clock s) audio_path) as [err|size]; simpl.
  - flatten_trace. reflexivity.
  - destruct (load_model w model_size) as [e|model]; simpl.
    + flatten_trace. reflexivity.
    + destruct (language_truthy language); run;
        destruct (transcribe model audio_path _) as [e|result]; simpl;
        flatten_trace; reflexivity.
Qed.

(** ** [setup_ffmpeg], the discovery and [main], case by case *)

Lemma setup_ffmpeg_run w s :
  setup_ffmpeg w s =
  match stat w (clock s) (ffmpeg_dir w) with
  | inr _ =>
      if PyStr.contains (ffmpeg_dir w) (environ_PATH s)
      then (Returned true, tick s)
      else (Returned true,
            mkState (S (clock s)) (ffmpeg_dir w ++ pathsep w ++ environ_PATH s)
                    (trace s ++ [Console (AddedFfmpegToPath (ffmpeg_dir w))]))
  | inl e =>
      if pathlib_ignore_error e || is_ValueError e
      then (Returned false, extended s 1 [Console FfmpegNotFound])
      else (Raised e, tick s)
  end.
Proof.
  unfold setup_ffmpeg. run.
  destruct (stat w (clock s) (ffmpeg_dir w)) as [e|size]; simpl.
  - destruct (pathlib_ignore_error e || is_ValueError e);
      reflexivity.
  - destruct (PyStr.contains (ffmpeg_dir w) (environ_PATH s)); reflexivity.
Qed.

Lemma extend_audio_files_run w exts : forall audio_files s,
  extend_audio_files w exts audio_files s =
  (Returned (audio_files ++ scans w (clock s) exts)%list,
   mkState (List.length exts + clock s) (environ_PATH s) (trace s)).
Proof.
  induction exts as [|ext rest IH]; intros audio_files s; simpl.
  - unfold ret. rewrite app_nil_r. destruct s; reflexivity.
  - unfold bind, Path_glob. rewrite IH. simpl.
    rewrite <- app_assoc, Nat.add_succ_r. reflexivity.
Qed.

Lemma discover_audio_files_run w s :
  discover_audio_files w s =
  (Returned (scans w (clock s) audio_extensions),
   mkState (5 + clock s) (environ_PATH s) (trace s)).
Proof. unfold discover_audio_files. rewrite extend_audio_files_run. reflexivity. Qed.

Lemma setup_ffmpeg_cases w s :
  exists out lines n path,
    setup_ffmpeg w s = (out, mkState n path (trace s ++ map Console lines)) /\
    forall a, ~ In (UsingAudioFile a) lines.
Proof.
  rewrite setup_ffmpeg_run.
  destruct (stat w (clock s) (ffmpeg_dir w)) as [err|size].
  - destruct (pathlib_ignore_error err || is_ValueError err).
    + exists (Returned false), [FfmpegNotFound]. do 2 eexists. split; [reflexivity|].
      intros a [H|[]]. discriminate.
    + exists (Raised err), []. do 2 eexists. split; [|intros a []].
      unfold tick. simpl. rewrite app_nil_r. reflexivity.
  - destruct (PyStr.contains (ffmpeg_dir w) (environ_PATH s)).
    + exists (Returned true), []. do 2 eexists. split; [|intros a []].
      unfold tick. simpl. rewrite app_nil_r. reflexivity.
    + exists (Returned true), [AddedFfmpegToPath (ffmpeg_dir w)]. do 2 eexists.
      split; [reflexivity|]. intros a [H|[]]. discriminate.
Qed.

(** [select_input] only prints; the file it announces and selects is the
    first of the discovered sequence. *)
Lemma select_input_cases w s :
  exists lines n path,
    snd (select_input w s) = mkState n path (trace s ++ map Console lines) /\
    (forall other, In (UsingAudioFile other) lines ->
       exists rest,
         fst (setup_ffmpeg w s) = Returned true /\
         fst (discover_audio_files w (snd (setup_ffmpeg w s))) = Returned (other :: rest)) /\
    (forall first rest,
       fst (setup_ffmpeg w s) = Returned true ->
       fst (discover_audio_files w (snd (setup_ffmpeg w s))) = Returned (first :: rest) ->
       In (UsingAudioFile first) lines) /\
    (forall audio_file,
       fst (select_input w s) = Returned (Some audio_file) ->
       In (UsingAudioFile audio_file) lines).
Proof.
  unfold select_input. rewrite bind_run.
  destruct (setup_ffmpeg_cases w s) as (out & lines0 & n0 & path0 & Hsetup & Hno).
  rewrite Hsetup. destruct out as [ok|err]; cbn [negb fst snd].
  2:{ exists lines0. do 2 eexists. split; [reflexivity|]. repeat split.
      - intros a H. destruct (Hno _ H).
      - discriminate.
      - discriminate. }
  destruct ok; cbn [negb fst snd].
  2:{ exists lines0. do 2 eexists. split; [reflexivity|]. repeat split.
      - intros a H. destruct (Hno _ H).
      - discriminate.
      - discriminate. }
  rewrite bind_run, discover_audio_files_run. cbv beta iota.
  cbn [clock fst].
  destruct (scans w n0 audio_extensions) as [|first rest] eqn:Hscan.
  - exists (lines0 ++ [NoAudioFilesFound])%list. do 2 eexists.
    split; [run; rewrite map_app; flatten_trace; reflexivity|]. repeat split.
    + intros a H. apply in_app_or in H. destruct H as [H|[H|[]]].
      * destruct (Hno _ H).
      * discriminate.
    + discriminate.
    + discriminate.
  - set (probe := [FoundAudioFiles (first :: rest); Rule; TestingBaseModel; Rule;
                   UsingAudioFile first;
                   FileExists (match stat w (S (S (S (S (S n0))))) first with
                               | inr _ => true | inl _ => false end)]).
    assert (Huniq : forall extra other,
               (forall x, In x extra -> exists size, x = FileSize size) ->
               In (UsingAudioFile other) (lines0 ++ probe ++ extra) ->
               exists rest0,
                 Returned (A:=bool) true = Returned true /\
                 Returned (first :: rest) = Returned (other :: rest0)).
    { intros extra other Hextra Hin. apply in_app_or in Hin. destruct Hin as [Hin|Hin].
      - destruct (Hno _ Hin).
      - apply in_app_or in Hin. destruct Hin as [Hin|Hin].
        + simpl in Hin.
          repeat (destruct Hin as [Hin|Hin]; [try discriminate|]).
          * injection Hin as <-. exists rest. split; reflexivity.
          * destruct Hin.
        + destruct (Hextra _ Hin) as [size Hsize]. discriminate. }
    assert (Hfirst : forall extra first0 rest0,
               Returned (A:=bool) true = Returned true ->
               Returned (first :: rest) = Returned (first0 :: rest0) ->
               In (UsingAudioFile first0) (lines0 ++ probe ++ extra)).
    { intros extra first0 rest0 _ H. injection H as <- <-.
      apply in_or_app. right. apply in_or_app. left. simpl. tauto. }
    run. destruct (stat w (S (S (S (S (S (S n0)))))) first) as [err|size]; simpl.
    + exists (lines0 ++ probe ++ [])%list.
      do 2 eexists. split; [rewrite map_app; flatten_trace; reflexivity|].
      repeat split.
      * intro other. apply (Huniq []). intros x [].
      * apply (Hfirst []).
      * discriminate.
    + exists (lines0 ++ probe ++ [FileSize size])%list.
      do 2 eexists. split; [rewrite map_app; flatten_trace; reflexivity|].
      repeat split.
      * intro other. apply (Huniq [FileSize size]). intros x [<-|[]]. now exists size.
      * apply (Hfirst [FileSize size]).
      * intros a H. injection H as <-. apply (Hfirst _ first rest); reflexivity.
Qed.

Lemma main_cases w s :
  exists lines,
    (forall other, In (UsingAudioFile other) lines ->
       exists rest,
         fst (setup_ffmpeg w s) = Returned true /\
         fst (discover_audio_files w (snd (setup_ffmpeg w s))) = Returned (other :: rest)) /\
    (forall first rest,
       fst (setup_ffmpeg w s) = Returned true ->
       fst (discover_audio_files w (snd (setup_ffmpeg w s))) = Returned (first :: rest) ->
       In (UsingAudioFile first) lines) /\
    ((events_of (main w) s = map Console lines /\
      forall a, fst (select_input w s) <> Returned (Some a))
     \/
     exists a s1 r s2,
       select_input w s = (Returned (Some a), s1) /\
       In (UsingAudioFile a) lines /\
       transcribe_audio w a "base" None s1 = (Returned r, s2) /\
       fst (main w s) = Returned tt /\
       events_of (main w) s =
         (map Console lines ++ events_of (transcribe_audio w a "base" None) s1
          ++ events_of (report_result a r) s2)%list).
Proof.
  destruct (select_input_cases w s) as (lines & n & path & Hsnd & Huniq & Hfirst & Hsel).
  exists lines. split; [exact Huniq|]. split; [exact Hfirst|].
  assert (Hmain := main_blocks w s). rewrite bind_run in Hmain.
  destruct (select_input w s) as [[[a|]|e] s1] eqn:Hsi; cbn [fst snd] in *.
  - right. subst s1. specialize (Hsel a eq_refl).
    rewrite bind_run in Hmain.
    assert (Ht := transcribe_audio_run w a "base" None
                    (mkState n path (trace s ++ map Console lines))).
    destruct (transcribe_audio w a "base" None _) as [[r|e] s2] eqn:Hta.
    2:{ exfalso. revert Ht.
        destruct (stat w _ a); [discriminate|].
        destruct (load_model w "base"); [discriminate|].
        destruct (transcribe _ _ _); discriminate. }
    exists a, (mkState n path (trace s ++ map Console lines)), r, s2.
    split; [reflexivity|]. split; [exact Hsel|]. split; [exact Hta|].
    assert (Hs2 : exists evs, s2 = extended (mkState n path (trace s ++ map Console lines)) 1 evs).
    { revert Ht.
      destruct (stat w _ a); [intro H; injection H as _ ->; eauto|].
      destruct (load_model w "base"); [intro H; injection H as _ ->; eauto|].
      destruct (transcribe _ _ _); intro H; injection H as _ ->; eauto. }
    destruct Hs2 as [evs ->].
    rewrite (events_of_extended (transcribe_audio w a "base" None) _ 1 evs)
      by (rewrite Hta; reflexivity).
    unfold events_of at 1. rewrite Hmain.
    destruct r as [r|].
    + rewrite (emits_events_of _ _ _ (report_result_some a r)).
      rewrite (report_result_some a r). cbn [fst snd trace extended].
      split; [reflexivity|].
      rewrite <- !app_assoc. apply skipn_length_app.
    + rewrite (emits_events_of _ _ _ (report_result_none a)).
      rewrite (report_result_none a). cbn [fst snd trace extended].
      split; [reflexivity|].
      rewrite <- !app_assoc. apply skipn_length_app.
  - left. subst s1. unfold events_of. rewrite Hmain. unfold ret. cbn [snd trace].
    split; [apply skipn_length_app|]. discriminate.
  - left. subst s1. unfold events_of. rewrite Hmain. cbn [snd trace].
    split; [apply skipn_length_app|]. discriminate.
Qed.
(** ** Projections of a trace *)

Lemma file_events_app a b : file_events (a ++ b) = (file_events a ++ file_events b)%list.
Proof. apply filter_app. Qed.

Lemma transcribe_calls_app a b :
  transcribe_calls (a ++ b) = (transcribe_calls a ++ transcribe_calls b)%list.
Proof.
  induction a as [|ev a IH]; simpl; [reflexivity|].
  destruct ev; simpl; rewrite ?IH; reflexivity.
Qed.

Lemma load_calls_app a b : load_calls (a ++ b) = (load_calls a ++ load_calls b)%list.
Proof.
  induction a as [|ev a IH]; simpl; [reflexivity|].
  destruct ev; simpl; rewrite ?IH; reflexivity.
Qed.

Lemma file_events_console lines : file_events (map Console lines) = [].
Proof. induction lines; simpl; auto. Qed.

Lemma transcribe_calls_console lines : transcribe_calls (map Console lines) = [].
Proof. induction lines; simpl; auto. Qed.

Lemma load_calls_console lines : load_calls (map Console lines) = [].
Proof. induction lines; simpl; auto. Qed.

Lemma in_map_console l lines : In (Console l) (map Console lines) <-> In l lines.
Proof.
  split.
  - intro H. apply in_map_iff in H. destruct H as (x & Hx & Hin). now injection Hx as <-.
  - apply in_map.
Qed.

Lemma file_events_writes f chunks :
  file_events (map (FileWrite f) chunks) = map (FileWrite f) chunks.
Proof. induction chunks; simpl; congruence. Qed.

Lemma transcribe_calls_writes f chunks : transcribe_calls (map (FileWrite f) chunks) = [].
Proof. induction chunks; simpl; auto. Qed.

Lemma load_calls_writes f chunks : load_calls (map (FileWrite f) chunks) = [].
Proof. induction chunks; simpl; auto. Qed.

Lemma file_events_report a r : file_events (report_events a r) = report_events a r.
Proof.
  unfold report_events. simpl. f_equal.
  rewrite file_events_app, file_events_writes. reflexivity.
Qed.

Lemma transcribe_calls_report a r : transcribe_calls (report_events a r) = [].
Proof.
  unfold report_events. simpl. rewrite transcribe_calls_app, transcribe_calls_writes.
  reflexivity.
Qed.

Lemma load_calls_report a r : load_calls (report_events a r) = [].
Proof.
  unfold report_events. simpl. rewrite load_calls_app, load_calls_writes. reflexivity.
Qed.

Lemma report_events_not_nil a r : report_events a r <> [].
Proof. discriminate. Qed.

(** The events of [report_result]: a complete report for a result,
    nothing on files for an absent one. *)
Lemma report_result_file_events audio_file result s :
  file_events (events_of (report_result audio_file result) s) =
  match result with
  | Some r => report_events audio_file r
  | None => []
  end.
Proof.
  destruct result as [r|].
  - rewrite (emits_events_of _ _ _ (report_result_some audio_file r)).
    rewrite !file_events_app, file_events_report. cbn [file_events filter is_file_event app].
    apply app_nil_r.
  - rewrite (emits_events_of _ _ _ (report_result_none audio_file)). reflexivity.
Qed.

Lemma report_result_calls audio_file result s :
  load_calls (events_of (report_result audio_file result) s) = [] /\
  transcribe_calls (events_of (report_result audio_file result) s) = [].
Proof.
  destruct result as [r|].
  - rewrite (emits_events_of _ _ _ (report_result_some audio_file r)).
    rewrite !load_calls_app, !transcribe_calls_app, load_calls_report,
      transcribe_calls_report. split; reflexivity.
  - rewrite (emits_events_of _ _ _ (report_result_none audio_file)). split; reflexivity.
Qed.

(** The events of [transcribe_audio] in each of its four cases. *)
Lemma transcribe_audio_events w audio_path model_size language s :
  events_of (transcribe_audio w audio_path model_size language) s =
  match stat w (clock s) audio_path with
  | inl _ =>
      [Console (ErrorWithModel model_size ("Audio file not found: " ++ audio_path));
       Console (ErrorType "FileNotFoundError")]
  | inr _ =>
      [Console (LoadingWhisperModel model_size); CallLoadModel model_size] ++
      match load_model w model_size with
      | inl e =>
          [Console (ErrorWithModel model_size (exc_str e));
           Console (ErrorType (exc_type e))]
      | inr model =>
          [Console (Transcribing audio_path);
           CallTranscribe audio_path (passed_language language)] ++
          match transcribe model audio_path (passed_language language) with
          | inl e =>
              [Console (ErrorWithModel model_size (exc_str e));
               Console (ErrorType (exc_type e))]
          | inr _ => []
          end
      end
  end%list.
Proof.
  assert (H := transcribe_audio_run w audio_path model_size language s).
  destruct (stat w (clock s) audio_path).
  - apply (events_of_extended _ _ 1). now rewrite H.
  - destruct (load_model w model_size).
    + apply (events_of_extended _ _ 1). now rewrite H.
    + destruct (transcribe _ _ _); apply (events_of_extended _ _ 1); now rewrite H.
Qed.

Lemma transcribe_audio_value w audio_path model_size language s :
  fst (transcribe_audio w audio_path model_size language s) =
  Returned
    match stat w (clock s) audio_path with
    | inl _ => None
    | inr _ =>
        match capability w audio_path model_size (passed_language language) with
        | inl _ => None
        | inr result => Some result
        end
    end.
Proof.
  rewrite transcribe_audio_run. unfold capability.
  destruct (stat w (clock s) audio_path); [reflexivity|].
  destruct (load_model w model_size); [reflexivity|].
  destruct (transcribe _ _ _); reflexivity.
Qed.

Lemma transcribe_audio_file_events w audio_path model_size language s :
  file_events (events_of (transcribe_audio w audio_path model_size language) s) = [].
Proof.
  rewrite transcribe_audio_events.
  destruct (stat w (clock s) audio_path); [reflexivity|].
  destruct (load_model w model_size); [reflexivity|].
  destruct (transcribe _ _ _); reflexivity.
Qed.

(** What a whole run leaves on files, from what the capability did. *)
Lemma main_file_events w s :
  file_events (events_of (main w) s) =
  match run_result w (events_of (main w) s) with
  | Some (audio_file, result) => report_events audio_file result
  | None => []
  end.
Proof.
  destruct (main_cases w s) as (lines & _ & _ & [[Hev _]|Hrun]).
  - rewrite Hev. unfold run_result.
    rewrite file_events_console, load_calls_console. reflexivity.
  - destruct Hrun as (a & s1 & r & s2 & _ & _ & Hta & _ & Hev).
    rewrite Hev. unfold run_result.
    rewrite !file_events_app, !load_calls_app, !transcribe_calls_app.
    rewrite file_events_console, load_calls_console, transcribe_calls_console.
    rewrite transcribe_audio_file_events, report_result_file_events.
    destruct (report_result_calls a r s2) as [-> ->]. rewrite !app_nil_r.
    assert (Hval := transcribe_audio_value w a "base" None s1).
    rewrite Hta in Hval. cbn [fst] in Hval. injection Hval as ->.
    rewrite transcribe_audio_events. unfold capability. cbn [app].
    destruct (stat w (clock s1) a); [reflexivity|].
    cbn [load_calls transcribe_calls app].
    destruct (load_model w "base") as [e|model]; [reflexivity|].
    cbn [load_calls transcribe_calls app].
    destruct (transcribe model a _); reflexivity.
Qed.

(** C4.  When the audio path does not exist at the moment of the
    transcription, [transcribe_audio] returns the absent result [None] to
    its caller instead of raising; it tells the operator that the audio
    file was not found, with the error kind FileNotFoundError, and does
    nothing else: the capability is not called and no file is touched.
    In a run of [main] that reaches the transcription in such a state, the
    process ends normally, the operator is told that the transcription
    failed, and no report file is written. *)
Theorem missing_audio_file_gives_absent_result
        (w : World) (audio_path model_size : string) (language : option string)
        (s : State) (err : PyException) :
  stat w (clock s) audio_path = inl err ->
  fst (transcribe_audio w audio_path model_size language s) = Returned None /\
  events_of (transcribe_audio w audio_path model_size language) s =
    [Console (ErrorWithModel model_size ("Audio file not found: " ++ audio_path));
     Console (ErrorType "FileNotFoundError")] /\
  file_events
    (events_of (report_result audio_path None)
               (snd (transcribe_audio w audio_path model_size language s))) = [] /\
  forall s0,
    select_input w s0 = (Returned (Some audio_path), s) ->
    fst (main w s0) = Returned tt /\
    file_events (events_of (main w) s0) = [] /\
    In (Console TranscriptionFailed) (events_of (main w) s0).
Proof.
  intro Hstat.
  split; [rewrite transcribe_audio_value, Hstat; reflexivity|].
  split; [rewrite transcribe_audio_events, Hstat; reflexivity|].
  split; [apply report_result_file_events|].
  intros s0 Hsel.
  destruct (main_cases w s0) as (lines & _ & _ & [[_ Hno]|Hrun]).
  - exfalso. apply (Hno audio_path). now rewrite Hsel.
  - destruct Hrun as (a & s1 & r & s2 & Hsel' & _ & Hta & Hout & Hev).
    rewrite Hsel in Hsel'. injection Hsel' as <- <-.
    assert (Hval := transcribe_audio_value w audio_path "base" None s).
    rewrite Hta, Hstat in Hval. cbn [fst] in Hval. injection Hval as ->.
    split; [exact Hout|].
    rewrite Hev, transcribe_audio_events, Hstat.
    rewrite (emits_events_of _ _ _ (report_result_none audio_path)).
    split.
    + rewrite !file_events_app, file_events_console. reflexivity.
    + apply in_or_app. right. simpl. tauto.
Qed.

Lemma missing_audio_file_gives_absent_result_witness :
  let s := snd (select_input vanishing_world (initial_state "/usr/bin")) in
  select_input vanishing_world (initial_state "/usr/bin") = (Returned (Some "a.mp3"), s) /\
  stat vanishing_world (clock s) "a.mp3" = inl no_such_file /\
  fst (transcribe_audio vanishing_world "a.mp3" "base" None s) = Returned None /\
  fst (main vanishing_world (initial_state "/usr/bin")) = Returned tt /\
  file_events (events_of (main vanishing_world) (initial_state "/usr/bin")) = [].
Proof.
  intro s.
  assert (Hsel : select_input vanishing_world (initial_state "/usr/bin")
                 = (Returned (Some "a.mp3"), s)) by reflexivity.
  assert (Hstat : stat vanishing_world (clock s) "a.mp3" = inl no_such_file) by reflexivity.
  destruct (missing_audio_file_gives_absent_result
              vanishing_world "a.mp3" "base" None s no_such_file Hstat)
    as (Hv & _ & _ & Hmain).
  destruct (Hmain (initial_state "/usr/bin") Hsel) as (Hout & Hfiles & _).
  repeat split; assumption.
Defined.

(** The language [transcribe_audio] passes on, in plain terms. *)
Lemma passed_language_cases language :
  (language = None -> passed_language language = None) /\
  (language = Some "" -> passed_language language = None) /\
  (forall l, language = Some l -> l <> "" -> passed_language language = Some l).
Proof.
  repeat split.
  - intros ->. reflexivity.
  - intros ->. reflexivity.
  - intros l -> Hl. destruct l; [congruence|reflexivity].
Qed.

(** C5, as stated, fails: a hint that is present but empty is not passed;
    the call is made without the language parameter. *)
Lemma empty_language_hint_is_omitted :
  transcribe_calls
    (events_of (transcribe_audio (steady_world ["a.mp3"]) "a.mp3" "base" (Some ""))
               (initial_state "/usr/bin")) = [("a.mp3", None)] /\
  ~ passes_hint_as_given (steady_world ["a.mp3"]) "a.mp3" "base" (Some "")
      (initial_state "/usr/bin").
Proof.
  split; [reflexivity|].
  intro H. specialize (H "a.mp3" None (or_introl eq_refl)). discriminate.
Qed.

(** C5, amended.  [transcribe_audio] calls the capability at most once,
    on its audio path; the call carries the language hint exactly when the
    hint is present and not the empty string, and has no language
    parameter at all when the hint is absent or empty.  The call is made
    whenever the audio file exists and the model loads. *)
Theorem language_passed_iff_present_and_non_empty
        (w : World) (audio_path model_size : string) (language : option string)
        (s : State) :
  let calls :=
    transcribe_calls (events_of (transcribe_audio w audio_path model_size language) s) in
  (forall audio passed,
      In (audio, passed) calls ->
      audio = audio_path /\
      (language = None -> passed = None) /\
      (language = Some "" -> passed = None) /\
      (forall l, language = Some l -> l <> "" -> passed = Some l)) /\
  (calls = [] \/ exists passed, calls = [(audio_path, passed)]) /\
  (forall size model,
      stat w (clock s) audio_path = inr size ->
      load_model w model_size = inr model ->
      exists passed, calls = [(audio_path, passed)]).
Proof.
  intro calls. subst calls. rewrite transcribe_audio_events.
  destruct (stat w (clock s) audio_path) as [err|size].
  { split; [intros ? ? []|]. split; [now left|]. intros; congruence. }
  cbn [app transcribe_calls].
  destruct (load_model w model_size) as [e|model].
  { split; [intros ? ? []|]. split; [now left|]. intros; congruence. }
  cbn [app transcribe_calls].
  assert (Hcalls : transcribe_calls
            match transcribe model audio_path (passed_language language) with
            | inl e => [Console (ErrorWithModel model_size (exc_str e));
                        Console (ErrorType (exc_type e))]
            | inr _ => []
            end = []) by (destruct (transcribe _ _ _); reflexivity).
  rewrite Hcalls.
  split; [|split].
  - intros audio passed [H|[]]. injection H as <- <-.
    split; [reflexivity|]. apply passed_language_cases.
  - right. eauto.
  - intros. eauto.
Qed.

Lemma language_passed_iff_present_and_non_empty_witness :
  transcribe_calls
    (events_of (transcribe_audio (steady_world ["a.mp3"]) "a.mp3" "base" (Some "fr"))
               (initial_state "/usr/bin")) = [("a.mp3", Some "fr")].
Proof.
  destruct (language_passed_iff_present_and_non_empty
              (steady_world ["a.mp3"]) "a.mp3" "base" (Some "fr")
              (initial_state "/usr/bin")) as (Hform & _ & Hmade).
  destruct (Hmade 2048%N hello_model eq_refl eq_refl) as [passed Hcalls].
  rewrite Hcalls. f_equal. f_equal.
  destruct (Hform "a.mp3" passed) as (_ & _ & _ & Hsome).
  - rewrite Hcalls. now left.
  - apply (Hsome "fr"); [reflexivity | discriminate].
Defined.

Lemma console_app a b : console (a ++ b) = (console a ++ console b)%list.
Proof.
  induction a as [|ev a IH]; simpl; [reflexivity|].
  destruct ev; simpl; rewrite ?IH; reflexivity.
Qed.

Lemma console_map lines : console (map Console lines) = lines.
Proof. induction lines; simpl; congruence. Qed.

Lemma console_writes f chunks : console (map (FileWrite f) chunks) = [].
Proof. induction chunks; simpl; auto. Qed.

Lemma console_report a r : console (report_events a r) = [].
Proof.
  unfold report_events. cbn [console]. rewrite console_app, console_writes. reflexivity.
Qed.

(** Neither [transcribe_audio] nor [report_result] announces an input. *)
Lemma transcribe_audio_announces_nothing w audio_path model_size language s other :
  ~ In (UsingAudioFile other)
       (console (events_of (transcribe_audio w audio_path model_size language) s)).
Proof.
  rewrite transcribe_audio_events.
  destruct (stat w (clock s) audio_path).
  - simpl. intuition discriminate.
  - destruct (load_model w model_size).
    + simpl. intuition discriminate.
    + destruct (transcribe _ _ _); simpl; intuition discriminate.
Qed.

Lemma report_result_announces_nothing audio_file result s other :
  ~ In (UsingAudioFile other) (console (events_of (report_result audio_file result) s)).
Proof.
  destruct result as [r|].
  - rewrite (emits_events_of _ _ _ (report_result_some audio_file r)).
    rewrite !console_app, console_report. simpl. intuition discriminate.
  - rewrite (emits_events_of _ _ _ (report_result_none audio_file)).
    simpl. intuition discriminate.
Qed.

Lemma transcribe_audio_calls w audio_path model_size language s :
  transcribe_calls (events_of (transcribe_audio w audio_path model_size language) s) = [] \/
  transcribe_calls (events_of (transcribe_audio w audio_path model_size language) s)
  = [(audio_path, passed_language language)].
Proof.
  rewrite transcribe_audio_events.
  destruct (stat w (clock s) audio_path); [now left|].
  destruct (load_model w model_size); [now left|].
  destruct (transcribe _ _ _); now right.
Qed.

(** C9.  On a run where the decoder is set up and the discovery yields at
    least one candidate, the only file the pipeline announces and selects
    is the first candidate of the discovered sequence; every transcription
    call of the run is on that file, and there is at most one such call. *)
Theorem only_first_candidate_is_transcribed
        (w : World) (s : State) (first : string) (rest : list string) :
  fst (setup_ffmpeg w s) = Returned true ->
  fst (discover_audio_files w (snd (setup_ffmpeg w s))) = Returned (first :: rest) ->
  In (UsingAudioFile first) (console (events_of (main w) s)) /\
  (forall other, In (UsingAudioFile other) (console (events_of (main w) s)) ->
                 other = first) /\
  (forall audio passed, In (audio, passed) (transcribe_calls (events_of (main w) s)) ->
                        audio = first) /\
  List.length (transcribe_calls (events_of (main w) s)) <= 1.
Proof.
  intros Hsetup Hdisc.
  destruct (main_cases w s) as (lines & Huniq & Hfirst & Hcases).
  assert (Hlines : forall other, In (UsingAudioFile other) lines -> other = first).
  { intros other Hin. destruct (Huniq other Hin) as (rest' & _ & Hd).
    rewrite Hdisc in Hd. now injection Hd as ->. }
  specialize (Hfirst first rest Hsetup Hdisc).
  destruct Hcases as [[Hev _]|(a & s1 & r & s2 & _ & Ha & _ & _ & Hev)]; rewrite Hev.
  - rewrite console_map, transcribe_calls_console.
    repeat split; auto. intros audio passed [].
  - rewrite !console_app, console_map, !transcribe_calls_app, transcribe_calls_console.
    destruct (report_result_calls a r s2) as [_ ->]. rewrite app_nil_r. cbn [app].
    apply Hlines in Ha. subst a.
    repeat split.
    + apply in_or_app. now left.
    + intros other Hin. apply in_app_or in Hin. destruct Hin as [Hin|Hin]; [auto|].
      apply in_app_or in Hin. destruct Hin as [Hin|Hin].
      * destruct (transcribe_audio_announces_nothing _ _ _ _ _ _ Hin).
      * destruct (report_result_announces_nothing _ _ _ _ Hin).
    + intros audio passed Hin.
      destruct (transcribe_audio_calls w first "base" None s1) as [Hc|Hc];
        rewrite Hc in Hin; [destruct Hin|].
      destruct Hin as [Hin|[]]. now injection Hin as <- _.
    + destruct (transcribe_audio_calls w first "base" None s1) as [Hc|Hc];
        rewrite Hc; simpl; lia.
Qed.

Lemma only_first_candidate_is_transcribed_witness :
  let w := steady_world ["notes.txt"; "b.wav"; "a.mp3"] in
  let s := initial_state "/usr/bin" in
  fst (discover_audio_files w (snd (setup_ffmpeg w s))) = Returned ["a.mp3"; "b.wav"] /\
  transcribe_calls (events_of (main w) s) = [("a.mp3", None)] /\
  forall audio passed, In (audio, passed) (transcribe_calls (events_of (main w) s)) ->
                       audio = "a.mp3".
Proof.
  intros w s.
  assert (Hsetup : fst (setup_ffmpeg w s) = Returned true) by reflexivity.
  assert (Hdisc : fst (discover_audio_files w (snd (setup_ffmpeg w s)))
                  = Returned ["a.mp3"; "b.wav"]) by reflexivity.
  destruct (only_first_candidate_is_transcribed w s "a.mp3" ["b.wav"] Hsetup Hdisc)
    as (_ & _ & Hcalls & _).
  split; [exact Hdisc|]. split; [reflexivity|]. exact Hcalls.
Defined.

(** ** Strings *)

Lemma str_app_assoc (a b c : string) : (a ++ b) ++ c = a ++ b ++ c.
Proof. induction a as [|x a IH]; simpl; congruence. Qed.

Lemma str_app_nil_r (a : string) : a ++ "" = a.
Proof. induction a as [|x a IH]; simpl; congruence. Qed.

Lemma concat_cons (c : string) (cs : list string) :
  String.concat "" (c :: cs) = c ++ String.concat "" cs.
Proof. destruct cs; simpl; [now rewrite str_app_nil_r | reflexivity]. Qed.

Lemma concat_app (xs ys : list string) :
  String.concat "" (xs ++ ys) = String.concat "" xs ++ String.concat "" ys.
Proof.
  induction xs as [|x xs IH]; [reflexivity|].
  change ((x :: xs) ++ ys)%list with (x :: (xs ++ ys)%list).
  rewrite !concat_cons, IH, str_app_assoc. reflexivity.
Qed.

(** ** The report on file *)

Lemma written_chunks_app f a b :
  written_chunks f (a ++ b) = (written_chunks f a ++ written_chunks f b)%list.
Proof.
  induction a as [|ev a IH]; simpl; [reflexivity|].
  destruct ev; simpl; rewrite ?IH; try reflexivity.
  destruct (file =? f)%string; reflexivity.
Qed.

Lemma written_chunks_writes f chunks : written_chunks f (map (FileWrite f) chunks) = chunks.
Proof. induction chunks; simpl; rewrite ?String.eqb_refl; congruence. Qed.

Lemma written_chunks_file_events f evs :
  written_chunks f evs = written_chunks f (file_events evs).
Proof.
  induction evs as [|ev evs IH]; simpl; [reflexivity|].
  destruct ev; simpl; rewrite ?IH; reflexivity.
Qed.

Lemma written_chunks_report a r :
  written_chunks output_file (report_events a r) = report_chunks a r.
Proof.
  unfold report_events. cbn [written_chunks].
  rewrite written_chunks_app, written_chunks_writes. apply app_nil_r.
Qed.

Lemma file_content_file_events f evs : forall old,
  file_content f old evs = file_content f old (file_events evs).
Proof.
  induction evs as [|ev evs IH]; intro old; simpl; [reflexivity|].
  destruct ev; simpl; rewrite ?IH; reflexivity.
Qed.

Lemma file_content_writes f chunks rest : forall text,
  file_content f (Some text) (map (FileWrite f) chunks ++ rest) =
  file_content f (Some (text ++ String.concat "" chunks)) rest.
Proof.
  induction chunks as [|c chunks IH]; intro text.
  - simpl. now rewrite str_app_nil_r.
  - cbn [map app file_content]. rewrite String.eqb_refl. cbn [option_map].
    rewrite IH, concat_cons, str_app_assoc. reflexivity.
Qed.

Lemma file_content_report old a r :
  file_content output_file old (report_events a r) =
  Some (String.concat "" (report_chunks a r)).
Proof.
  unfold report_events. cbn [file_content]. rewrite String.eqb_refl.
  rewrite file_content_writes. reflexivity.
Qed.

Lemma report_text_chunks a r : report_text a r = String.concat "" (report_chunks a r).
Proof.
  unfold report_text.
  rewrite (emits_events_of _ _ _ (write_report_emits a r)), written_chunks_report.
  reflexivity.
Qed.

(** The pieces a whole run writes to the report file. *)
Lemma main_written_chunks w s :
  written_chunks output_file (events_of (main w) s) =
  match run_result w (events_of (main w) s) with
  | Some (audio_file, result) => report_chunks audio_file result
  | None => []
  end.
Proof.
  rewrite written_chunks_file_events, main_file_events.
  destruct (run_result w (events_of (main w) s)) as [[a r]|]; [|reflexivity].
  apply written_chunks_report.
Qed.

(** C6.  Rendering the report is deterministic and idempotent.  The
    operations [main] performs on the report file for an audio file and a
    result are the same in every state of the process; whatever the file
    held before, it then holds exactly [report_text]; running the block a
    second time on the same pair leaves byte-identical contents; and two
    runs of the script, in any two worlds, that transcribe the same audio
    file and obtain the same result leave byte-identical files. *)
Theorem report_rendering_is_deterministic :
  (forall audio_file result s1 s2,
      events_of (write_report audio_file result) s1 =
      events_of (write_report audio_file result) s2) /\
  (forall audio_file result s before,
      file_content output_file before (events_of (write_report audio_file result) s)
      = Some (report_text audio_file result)) /\
  (forall audio_file result s before,
      file_content output_file before
        (events_of (write_report audio_file result ;; write_report audio_file result) s)
      = Some (report_text audio_file result)) /\
  (forall w1 w2 s1 s2 before1 before2 audio_file result,
      run_result w1 (events_of (main w1) s1) = Some (audio_file, result) ->
      run_result w2 (events_of (main w2) s2) = Some (audio_file, result) ->
      file_content output_file before1 (events_of (main w1) s1) =
      file_content output_file before2 (events_of (main w2) s2) /\
      file_content output_file before1 (events_of (main w1) s1) =
      Some (report_text audio_file result)).
Proof.
  split; [|split; [|split]].
  - intros a r s1 s2.
    now rewrite !(emits_events_of _ _ _ (write_report_emits a r)).
  - intros a r s old.
    rewrite (emits_events_of _ _ _ (write_report_emits a r)).
    rewrite file_content_report, report_text_chunks. reflexivity.
  - intros a r s old.
    rewrite (emits_events_of _ _ _
               (emits_seq _ _ _ _ (write_report_emits a r) (write_report_emits a r))).
    rewrite file_content_file_events, file_events_app, !file_events_report.
    unfold report_events at 1. cbn [app file_content]. rewrite String.eqb_refl.
    rewrite <- app_assoc, file_content_writes. cbn [app file_content].
    rewrite file_content_report, report_text_chunks. reflexivity.
  - intros w1 w2 s1 s2 before1 before2 a r H1 H2.
    rewrite (file_content_file_events _ (events_of (main w1) s1)).
    rewrite (file_content_file_events _ (events_of (main w2) s2)).
    rewrite !main_file_events, H1, H2, !file_content_report, report_text_chunks.
    split; reflexivity.
Qed.

Lemma report_rendering_is_deterministic_witness :
  let w1 := steady_world ["a.mp3"] in
  let w2 := steady_world ["notes.txt"; "b.wav"; "a.mp3"] in
  let s1 := initial_state "/usr/bin" in
  let s2 := initial_state "/opt/ffmpeg/bin:/bin" in
  file_content output_file None (events_of (main w1) s1) =
  file_content output_file (Some "old report") (events_of (main w2) s2).
Proof.
  intros w1 w2 s1 s2.
  destruct report_rendering_is_deterministic as (_ & _ & _ & H).
  destruct (H w1 w2 s1 s2 None (Some "old report") "a.mp3" hello_result
              eq_refl eq_refl) as [Hsame _].
  exact Hsame.
Defined.

(** ** Decimal numerals *)









Lemma write_report_chunks audio_file result s :
  written_chunks output_file (events_of (write_report audio_file result) s) =
  report_chunks audio_file result.
Proof.
  rewrite (emits_events_of _ _ _ (write_report_emits audio_file result)).
  apply written_chunks_report.
Qed.

Lemma segments_header_not_in_head audio_file result :
  ~ In segments_header (report_head audio_file result).
Proof. unfold report_head, segments_header. simpl. intuition discriminate. Qed.



(** C8, as stated, fails: a result without the ['segments'] key carries
    zero segments too, by the count [main] prints at line 102, and its
    report has no header line. *)
Lemma missing_segments_key_counts_zero_without_header :
  List.length (dict_get (res_segments bare_result) []) = 0 /\
  In (SegmentsCount 0) (console (events_of (main bare_world) (initial_state "/usr/bin"))) /\
  ~ In segments_header
       (written_chunks output_file
          (events_of (write_report "a.mp3" bare_result) (initial_state "/usr/bin"))) /\
  ~ header_whenever_no_segment "a.mp3" bare_result (initial_state "/usr/bin").
Proof.
  assert (Hnone : ~ In segments_header
                      (written_chunks output_file
                         (events_of (write_report "a.mp3" bare_result)
                                    (initial_state "/usr/bin")))).
  { rewrite write_report_chunks. unfold report_chunks.
    cbn [res_segments bare_result]. rewrite app_nil_r.
    apply segments_header_not_in_head. }
  split; [reflexivity|].
  split; [vm_compute; tauto|].
  split; [exact Hnone|].
  intro H. apply Hnone. apply H. reflexivity.
Qed.

(** C8, amended.  For a result whose ['segments'] list is there and
    empty, the report still has the "Detailed segments:" header line: it
    is the last piece written, so that no segment entry, and nothing
    else, follows it.  So it is on a whole run whose transcription gives
    such a result. *)
Theorem empty_segments_keep_header :
  (forall audio_file text language s,
      let result := mkResult text language (Some []) in
      written_chunks output_file (events_of (write_report audio_file result) s) =
      (report_head audio_file result ++ [(PyStr.LF ++ "Detailed segments:" ++ PyStr.LF)%string])%list /\
      report_text audio_file result =
      String.concat "" (report_head audio_file result)
      ++ PyStr.LF ++ "Detailed segments:" ++ PyStr.LF) /\
  (forall w s audio_file result,
      run_result w (events_of (main w) s) = Some (audio_file, result) ->
      res_segments result = Some [] ->
      written_chunks output_file (events_of (main w) s) =
      (report_head audio_file result ++ [(PyStr.LF ++ "Detailed segments:" ++ PyStr.LF)%string])%list).
Proof.
  split.
  - intros audio_file text language s result. split.
    + apply write_report_chunks.
    + rewrite report_text_chunks. unfold report_chunks. cbn [res_segments result].
      rewrite concat_app. reflexivity.
  - intros w s audio_file result Hrun Hsegs.
    rewrite main_written_chunks, Hrun. unfold report_chunks. now rewrite Hsegs.
Qed.

Lemma empty_segments_keep_header_witness :
  written_chunks output_file (events_of (main silent_world) (initial_state "/usr/bin")) =
  (report_head "a.mp3" silent_result ++ [(PyStr.LF ++ "Detailed segments:" ++ PyStr.LF)%string])%list.
Proof.
  destruct empty_segments_keep_header as [_ H].
  exact (H silent_world (initial_state "/usr/bin") "a.mp3" silent_result eq_refl eq_refl).
Defined.

(** C10.  The "Detailed segments:" header depends on the presence of the
    ['segments'] key, not on the list being non-empty.  Without the key
    the report is made of the six head lines only; the header is among
    the pieces written exactly when the key is there; a report with the
    key is the report without it followed by the header and the entries;
    and so it is for the file a whole run writes. *)
Theorem segments_header_iff_segments_key :
  (forall audio_file text language s,
      written_chunks output_file
        (events_of (write_report audio_file (mkResult text language None)) s) =
      report_head audio_file (mkResult text language None)) /\
  (forall audio_file result s,
      In segments_header
         (written_chunks output_file (events_of (write_report audio_file result) s))
      <-> res_segments result <> None) /\
  (forall audio_file text language segs,
      report_text audio_file (mkResult text language (Some segs)) =
      report_text audio_file (mkResult text language None)
      ++ segments_header ++ String.concat "" (segment_entries 1 segs)) /\
  (forall w s audio_file result,
      run_result w (events_of (main w) s) = Some (audio_file, result) ->
      (In segments_header (written_chunks output_file (events_of (main w) s))
       <-> res_segments result <> None)).
Proof.
  assert (Hiff : forall audio_file result,
             In segments_header (report_chunks audio_file result)
             <-> res_segments result <> None).
  { intros audio_file result. unfold report_chunks.
    destruct (res_segments result) as [segs|].
    - split; [discriminate|]. intros _. apply in_or_app. right. now left.
    - rewrite app_nil_r. split; [|congruence].
      intro H. destruct (segments_header_not_in_head _ _ H). }
  split; [|split; [|split]].
  - intros. rewrite write_report_chunks. unfold report_chunks. apply app_nil_r.
  - intros. rewrite write_report_chunks. apply Hiff.
  - intros audio_file text language segs.
    rewrite !report_text_chunks. unfold report_chunks. cbn [res_segments].
    rewrite app_nil_r, concat_app, concat_cons. reflexivity.
  - intros w s audio_file result Hrun.
    rewrite main_written_chunks, Hrun. apply Hiff.
Qed.

Lemma segments_header_iff_segments_key_witness :
  ~ In segments_header
       (written_chunks output_file (events_of (main bare_world) (initial_state "/usr/bin")))
  /\ In segments_header
        (written_chunks output_file
           (events_of (main silent_world) (initial_state "/usr/bin"))).
Proof.
  destruct segments_header_iff_segments_key as (_ & _ & _ & H).
  assert (Hbare : run_result bare_world
                    (events_of (main bare_world) (initial_state "/usr/bin"))
                  = Some ("a.mp3", bare_result)) by (vm_compute; reflexivity).
  assert (Hsilent : run_result silent_world
                      (events_of (main silent_world) (initial_state "/usr/bin"))
                    = Some ("a.mp3", silent_result)) by (vm_compute; reflexivity).
  destruct (H bare_world (initial_state "/usr/bin") "a.mp3" bare_result Hbare)
    as [Hnone _].
  destruct (H silent_world (initial_state "/usr/bin") "a.mp3" silent_result Hsilent)
    as [_ Hsome].
  split.
  - intro Hin. apply (Hnone Hin). reflexivity.
  - apply Hsome. discriminate.
Defined.

(** ** Matching the patterns of the discovery *)

Lemma str_length_app (a b : string) :
  String.length (a ++ b) = String.length a + String.length b.
Proof. induction a as [|x a IH]; simpl; congruence. Qed.

Lemma fnmatch_literal (pat : string) : forall name,
  literal pat = true -> PyStr.fnmatch pat name = (pat =? name)%string.
Proof.
  induction pat as [|c pat IH]; intros name Hlit.
  - destruct name; reflexivity.
  - simpl in Hlit. apply andb_prop in Hlit. destruct Hlit as [Hc Hlit].
    apply andb_prop in Hc. destruct Hc as [Hstar Hany].
    apply negb_true_iff in Hstar, Hany.
    simpl. rewrite Hstar, Hany.
    destruct name as [|d name]; [reflexivity|].
    rewrite (IH name Hlit). reflexivity.
Qed.

Lemma fnmatch_star (pat name : string) :
  PyStr.fnmatch ("*" ++ pat) name =
  PyStr.fnmatch pat name ||
  match name with
  | "" => false
  | String _ rest => PyStr.fnmatch ("*" ++ pat) rest
  end.
Proof. destruct name; reflexivity. Qed.

(** A star followed by a literal extension matches the names that end with
    the extension. *)
Lemma fnmatch_star_literal (ext : string) : forall name,
  literal ext = true ->
  (PyStr.fnmatch ("*" ++ ext) name = true <-> ends_with ext name).
Proof.
  intros name Hlit. induction name as [|c name IH].
  - rewrite fnmatch_star, orb_false_r, (fnmatch_literal ext "" Hlit), String.eqb_eq.
    split.
    + intros ->. now exists "".
    + intros [stem H]. destruct stem; [now simpl in H|discriminate].
  - rewrite fnmatch_star, orb_true_iff, (fnmatch_literal ext _ Hlit), String.eqb_eq, IH.
    split.
    + intros [->|[stem ->]]; [now exists ""|now exists (String c stem)].
    + intros [stem H]. destruct stem as [|d stem].
      * left. now simpl in H.
      * right. simpl in H. injection H as _ ->. now exists stem.
Qed.

(** Of two endings of one name, the shorter is an ending of the longer. *)
Lemma ends_with_both (e1 e2 : string) : forall name,
  ends_with e1 name -> ends_with e2 name ->
  String.length e1 <= String.length e2 -> ends_with e1 e2.
Proof.
  intros name [s1 H1] [s2 H2]. subst name. revert s1 H2.
  induction s2 as [|c s2 IH]; intros s1 H Hlen.
  - exists s1. now simpl.
  - destruct s1 as [|d s1].
    + simpl in H. subst e1. simpl in Hlen. rewrite str_length_app in Hlen. lia.
    + simpl in H. injection H as _ H. exact (IH s1 H Hlen).
Qed.

Lemma audio_extensions_literal ext : In ext audio_extensions -> literal ext = true.
Proof.
  intro H. simpl in H.
  repeat (destruct H as [<-|H]; [reflexivity|]). destruct H.
Qed.

(** No name matches two patterns of the allow-list. *)
Lemma audio_extensions_disjoint e1 e2 name :
  In e1 audio_extensions -> In e2 audio_extensions ->
  PyStr.fnmatch ("*" ++ e1) name = true -> PyStr.fnmatch ("*" ++ e2) name = true ->
  e1 = e2.
Proof.
  intros H1 H2 M1 M2.
  assert (L1 := audio_extensions_literal _ H1).
  assert (L2 := audio_extensions_literal _ H2).
  apply (fnmatch_star_literal e1 name L1) in M1.
  apply (fnmatch_star_literal e2 name L2) in M2.
  assert (Hsuffix : PyStr.fnmatch ("*" ++ e1) e2 = true \/
                    PyStr.fnmatch ("*" ++ e2) e1 = true).
  { destruct (Nat.le_ge_cases (String.length e1) (String.length e2)) as [Hle|Hle].
    - left. apply (fnmatch_star_literal e1 e2 L1). exact (ends_with_both _ _ _ M1 M2 Hle).
    - right. apply (fnmatch_star_literal e2 e1 L2). exact (ends_with_both _ _ _ M2 M1 Hle). }
  clear M1 M2 L1 L2. simpl in H1, H2.
  repeat (destruct H1 as [<-|H1]);
    repeat (destruct H2 as [<-|H2]);
    try reflexivity; try contradiction;
    destruct Hsuffix as [Hs|Hs]; vm_compute in Hs; discriminate.
Qed.

(** ** Lists regrouped by disjoint tests *)

Section Regroup.

Variable A : Type.

Lemma filter_none (l : list A) : filter (fun _ => false) l = [].
Proof. induction l; simpl; auto. Qed.

Lemma filter_filter_same (p : A -> bool) (l : list A) :
  filter p (filter p l) = filter p l.
Proof.
  induction l as [|x l IH]; simpl; [reflexivity|].
  destruct (p x) eqn:Hp; simpl; rewrite ?Hp, IH; reflexivity.
Qed.

Lemma filter_filter_disjoint (p q : A -> bool) (l : list A) :
  (forall x, p x = true -> q x = true -> False) -> filter p (filter q l) = [].
Proof.
  intro Hdisj. induction l as [|x l IH]; simpl; [reflexivity|].
  destruct (q x) eqn:Hq; simpl; [|exact IH].
  destruct (p x) eqn:Hp; [destruct (Hdisj x Hp Hq)|exact IH].
Qed.

Lemma filter_disjoint_union (p q : A -> bool) (l : list A) :
  (forall x, p x = true -> q x = true -> False) ->
  Permutation (filter p l ++ filter q l) (filter (fun x => p x || q x) l).
Proof.
  intro Hdisj. induction l as [|x l IH]; simpl; [constructor|].
  destruct (p x) eqn:Hp; destruct (q x) eqn:Hq; simpl.
  - destruct (Hdisj x Hp Hq).
  - now constructor.
  - apply Permutation_sym, Permutation_cons_app, Permutation_sym, IH.
  - exact IH.
Qed.

Variable K : Type.
Variable test : K -> A -> bool.

Lemma disjoint_tests_tail k keys :
  disjoint_tests test (k :: keys) -> disjoint_tests test keys.
Proof. intros H k1 k2 x H1 H2. apply H; now right. Qed.

Lemma filter_other_groups (keys : list K) (l : list A) (k : K) :
  disjoint_tests test (k :: keys) -> ~ In k keys ->
  filter (test k) (flat_map (fun k' => filter (test k') l) keys) = [].
Proof.
  intros Hdisj Hnotin. induction keys as [|k1 keys IH]; [reflexivity|].
  cbn [flat_map]. rewrite filter_app, IH.
  - rewrite filter_filter_disjoint; [reflexivity|].
    intros x H1 H2. apply Hnotin. left. symmetry.
    apply (Hdisj k k1 x); simpl; auto.
  - intros a b x Ha Hb. apply Hdisj; simpl in *; tauto.
  - intro H. apply Hnotin. now right.
Qed.

Lemma filter_grouped (keys : list K) (l : list A) (k : K) :
  NoDup keys -> disjoint_tests test keys -> In k keys ->
  filter (test k) (flat_map (fun k' => filter (test k') l) keys) = filter (test k) l.
Proof.
  intros Hnd. induction Hnd as [|k0 keys Hnotin Hnd IH]; intros Hdisj Hin; [destruct Hin|].
  cbn [flat_map]. rewrite filter_app.
  destruct Hin as [->|Hin].
  - rewrite filter_filter_same, (filter_other_groups keys l k Hdisj Hnotin).
    apply app_nil_r.
  - rewrite filter_filter_disjoint, (IH (disjoint_tests_tail _ _ Hdisj) Hin); [reflexivity|].
    intros x H1 H2. apply Hnotin.
    rewrite <- (Hdisj k k0 x); simpl; auto.
Qed.

Lemma flat_map_grouped_permutation (keys : list K) (l : list A) :
  NoDup keys -> disjoint_tests test keys ->
  Permutation (flat_map (fun k => filter (test k) l) keys)
              (filter (fun x => existsb (fun k => test k x) keys) l).
Proof.
  intro Hnd. induction Hnd as [|k keys Hnotin Hnd IH]; intro Hdisj.
  - simpl. rewrite filter_none. constructor.
  - cbn [flat_map existsb].
    apply Permutation_trans
      with (filter (test k) l ++ filter (fun x => existsb (fun k' => test k' x) keys) l)%list.
    + apply Permutation_app_head. exact (IH (disjoint_tests_tail _ _ Hdisj)).
    + apply (filter_disjoint_union (test k) (fun x => existsb (fun k' => test k' x) keys)).
      intros x H1 H2. apply existsb_exists in H2. destruct H2 as (k' & Hin & H2).
      apply Hnotin. rewrite (Hdisj k k' x); simpl; auto.
Qed.

End Regroup.

Lemma audio_extensions_nodup : NoDup audio_extensions.
Proof.
  unfold audio_extensions.
  repeat (constructor; [simpl; intuition discriminate|]). constructor.
Qed.

(** The discovery when the directory does not change during the five
    scans. *)
Lemma scans_stable w t listing :
  (forall k, k < 5 -> scandir w (k + t) "." = listing) ->
  scans w t audio_extensions =
  flat_map (fun ext => filter (PyStr.fnmatch ("*" ++ ext)) listing) audio_extensions.
Proof.
  intro H. unfold audio_extensions. cbn [scans flat_map].
  assert (H0 := H 0 ltac:(lia)). assert (H1 := H 1 ltac:(lia)).
  assert (H2 := H 2 ltac:(lia)). assert (H3 := H 3 ltac:(lia)).
  assert (H4 := H 4 ltac:(lia)). cbn [Nat.add] in H0, H1, H2, H3, H4.
  rewrite H0, H1, H2, H3, H4. now rewrite app_nil_r.
Qed.

(** C2, as stated, fails: the candidates do not come in the enumeration
    order of the directory.  With a directory enumerated as b.wav, a.mp3
    the discovery yields a.mp3 before b.wav. *)
Lemma discovery_regroups_the_enumeration :
  let w := steady_world ["b.wav"; "a.mp3"] in
  let s := initial_state "/usr/bin" in
  (forall t, scandir w t "." = ["b.wav"; "a.mp3"]) /\
  fst (discover_audio_files w s) = Returned ["a.mp3"; "b.wav"] /\
  ~ in_enumeration_order ["b.wav"; "a.mp3"] ["a.mp3"; "b.wav"].
Proof.
  intros w s. split; [reflexivity|]. split; [reflexivity|].
  unfold in_enumeration_order. vm_compute. discriminate.
Qed.

(** C2, amended.  The discovery scans the single directory ".", without
    descending into it, once per extension of the allow-list .mp3, .wav,
    .m4a, .flac, .ogg, taken in that order.  When the directory does not
    change meanwhile, the candidates are the entries whose name ends with
    one of these extensions, compared character for character; they come
    grouped by extension, the groups in the order of the allow-list, and
    within one group in the enumeration order of the directory.  Nothing
    is sorted: the result is a rearrangement of the enumeration restricted
    to the allow-list, and what other directories hold does not matter. *)
Theorem discovery_groups_candidates_by_extension
        (w : World) (s : State) (listing : list string) :
  (forall k, k < 5 -> scandir w (k + clock s) "." = listing) ->
  exists found,
    fst (discover_audio_files w s) = Returned found /\
    found = flat_map (fun ext => filter (PyStr.fnmatch ("*" ++ ext)) listing)
                     audio_extensions /\
    (forall name,
        In name found <->
        In name listing /\ exists ext, In ext audio_extensions /\ ends_with ext name) /\
    (forall ext,
        In ext audio_extensions ->
        filter (PyStr.fnmatch ("*" ++ ext)) found =
        filter (PyStr.fnmatch ("*" ++ ext)) listing) /\
    Permutation found (filter has_audio_extension listing) /\
    (forall w',
        (forall t, scandir w' t "." = scandir w t ".") ->
        fst (discover_audio_files w' s) = Returned found).
Proof.
  intro Hstable.
  exists (flat_map (fun ext => filter (PyStr.fnmatch ("*" ++ ext)) listing) audio_extensions).
  assert (Hfound := scans_stable w (clock s) listing Hstable).
  split; [rewrite discover_audio_files_run; cbn [fst]; now rewrite Hfound|].
  split; [reflexivity|].
  split; [|split; [|split]].
  - intro name. rewrite in_flat_map. split.
    + intros (ext & Hext & Hin). apply filter_In in Hin. destruct Hin as [Hin Hmatch].
      split; [exact Hin|]. exists ext. split; [exact Hext|].
      apply (fnmatch_star_literal ext name (audio_extensions_literal _ Hext)), Hmatch.
    + intros (Hin & ext & Hext & Hends). exists ext. split; [exact Hext|].
      apply filter_In. split; [exact Hin|].
      apply (fnmatch_star_literal ext name (audio_extensions_literal _ Hext)), Hends.
  - intros ext Hext.
    apply (filter_grouped string string (fun e => PyStr.fnmatch ("*" ++ e))
             audio_extensions listing ext audio_extensions_nodup); [|exact Hext].
    intros e1 e2 name. apply audio_extensions_disjoint.
  - apply (flat_map_grouped_permutation string string (fun e => PyStr.fnmatch ("*" ++ e))
             audio_extensions listing audio_extensions_nodup).
    intros e1 e2 name. apply audio_extensions_disjoint.
  - intros w' Hsame. rewrite discover_audio_files_run. cbn [fst]. f_equal.
    rewrite <- Hfound. unfold audio_extensions. cbn [scans]. now rewrite !Hsame.
Qed.

Lemma discovery_groups_candidates_by_extension_witness :
  let listing := ["b.wav"; "A.MP3"; "a.mp3"; "notes.txt"; "c.mp3"; "b.wav.bak"] in
  exists found,
    fst (discover_audio_files (steady_world listing) (initial_state "/usr/bin"))
    = Returned found /\
    found = ["a.mp3"; "c.mp3"; "b.wav"] /\
    Permutation found (filter has_audio_extension listing).
Proof.
  intro listing.
  destruct (discovery_groups_candidates_by_extension
              (steady_world listing) (initial_state "/usr/bin") listing
              (fun k _ => eq_refl))
    as (found & Hrun & Hfound & _ & _ & Hperm & _).
  exists found. split; [exact Hrun|]. split; [rewrite Hfound; reflexivity|exact Hperm].
Defined.

(** C3, the case the code misses.  The only candidate is a dangling link:
    [main] announces it, prints that it does not exist, then asks for its
    size outside of any [try]; the FileNotFoundError of [os.path.getsize]
    ends the process, before [transcribe_audio] and its handler are
    reached. *)
Theorem unguarded_size_probe_ends_the_process :
  let run := main dangling_world (initial_state "/usr/bin") in
  fst run = Raised no_such_file /\
  console (trace (snd run)) =
    [AddedFfmpegToPath "/opt/ffmpeg/bin"; FoundAudioFiles ["ghost.mp3"]; Rule;
     TestingBaseModel; Rule; UsingAudioFile "ghost.mp3"; FileExists false] /\
  load_calls (trace (snd run)) = [].
Proof. repeat split. Qed.

(* ================================================================== *)
(** * The report file, over an output that may refuse *)

Lemma bind_ext {A B} (c c' : Py A) (k k' : A -> Py B) s :
  c s = c' s -> (forall a s', k a s' = k' a s') -> bind c k s = bind c' k' s.
Proof.
  intros Hc Hk. unfold bind. rewrite Hc.
  destruct (c' s) as [[a|e] s']; [apply Hk|reflexivity].
Qed.

Lemma bind_ret_tt (c : Py unit) s : (c ;; ret tt) s = c s.
Proof. unfold bind, ret. destruct (c s) as [[[]|e] s']; reflexivity. Qed.

Lemma write_all_app o f xs ys s :
  write_all o f (xs ++ ys) s = (write_all o f xs ;; write_all o f ys) s.
Proof.
  revert s. induction xs as [|x xs IH]; intro s; [reflexivity|].
  cbn [app write_all]. rewrite bind_assoc.
  apply bind_ext; [reflexivity|]. intros _ s'. apply IH.
Qed.

Lemma write_segment_io_all o f i segment s :
  write_segment_io o f i segment s = write_all o f (segment_entry (i + 1) segment) s.
Proof.
  unfold write_segment_io, segment_entry. cbn [write_all].
  do 3 (apply bind_ext; [reflexivity|]; intros _ ?).
  symmetry. apply bind_ret_tt.
Qed.

Lemma for_enumerate_io_all o f segs : forall i s,
  for_enumerate i segs (write_segment_io o f) s =
  write_all o f (segment_entries (i + 1) segs) s.
Proof.
  induction segs as [|segment rest IH]; intros i s; [reflexivity|].
  change (segment_entries (i + 1) (segment :: rest))
    with (segment_entry (i + 1) segment ++ segment_entries (S (i + 1)) rest)%list.
  rewrite write_all_app. cbn [for_enumerate].
  apply bind_ext; [apply write_segment_io_all|]. intros _ s'. exact (IH (S i) s').
Qed.

(** What is to be written, piece by piece, is [report_chunks]. *)
Lemma write_all_run o f chunks : forall s,
  write_all o f chunks s =
  (match first_refusal o f chunks with
   | None => Returned tt
   | Some e => Raised e
   end,
   mkState (clock s) (environ_PATH s) (trace s ++ map (FileWrite f) (accepted o f chunks))).
Proof.
  induction chunks as [|chunk rest IH]; intro s.
  - cbn. rewrite app_nil_r. destruct s; reflexivity.
  - cbn [write_all first_refusal accepted]. unfold bind, file_write.
    destruct (write_error o f chunk) as [e|].
    + unfold raise. cbn. rewrite app_nil_r. destruct s; reflexivity.
    + unfold emit. rewrite IH. cbn. rewrite <- app_assoc. reflexivity.
Qed.

Lemma write_report_io_run o audio_file result s :
  write_report_io o audio_file result s =
  match open_error o output_file with
  | Some e => (Raised e, s)
  | None =>
      let written := accepted o output_file (report_chunks audio_file result) in
      match close_error o output_file with
      | Some e' =>
          (Raised e',
           mkState (clock s) (environ_PATH s)
                   (trace s ++ FileOpenW output_file
                            :: map (FileWrite output_file) written))
      | None =>
          (match first_refusal o output_file (report_chunks audio_file result) with
           | None => Returned tt
           | Some e => Raised e
           end,
           mkState (clock s) (environ_PATH s)
                   (trace s ++ FileOpenW output_file
                            :: map (FileWrite output_file) written
                            ++ [FileClose output_file]))
      end
  end.
Proof.
  unfold write_report_io, with_open, file_open. rewrite bind_run.
  destruct (open_error o output_file) as [e|]; [reflexivity|].
  unfold emit at 1. cbv beta iota.
  set (s0 := mkState (clock s) (environ_PATH s) (trace s ++ [FileOpenW output_file])).
  assert (Hbody :
    (file_write o output_file ("WHISPER TRANSCRIPTION RESULTS" ++ PyStr.LF) ;;
     file_write o output_file (PyStr.mul "=" 50 ++ PyStr.LF) ;;
     file_write o output_file ("Audio file: " ++ audio_file ++ PyStr.LF) ;;
     file_write o output_file ("Model: base" ++ PyStr.LF) ;;
     file_write o output_file
       ("Language: " ++ dict_get (res_language result) "Unknown" ++ PyStr.LF) ;;
     file_write o output_file ("Text: " ++ res_text result ++ PyStr.LF) ;;
     match res_segments result with
     | Some segs =>
         file_write o output_file (PyStr.LF ++ "Detailed segments:" ++ PyStr.LF) ;;
         for_enumerate 0 segs (write_segment_io o output_file)
     | None => ret tt
     end) s0 = write_all o output_file (report_chunks audio_file result) s0).
  { unfold report_chunks, report_head. cbn [app write_all].
    do 6 (apply bind_ext; [reflexivity|]; intros _ ?).
    destruct (res_segments result) as [segs|]; [|reflexivity].
    cbn [write_all]. apply bind_ext; [reflexivity|]. intros _ ?.
    apply (for_enumerate_io_all o output_file segs 0). }
  rewrite Hbody, write_all_run. unfold file_close, emit, raise. subst s0. cbn [clock environ_PATH trace].
  destruct (close_error o output_file) as [e'|];
    destruct (first_refusal o output_file (report_chunks audio_file result));
    cbn [clock environ_PATH trace]; rewrite <- ?app_assoc; cbn [app]; reflexivity.
Qed.

Lemma accepted_all o f chunks :
  (forall chunk, In chunk chunks -> write_error o f chunk = None) <->
  first_refusal o f chunks = None.
Proof.
  induction chunks as [|c rest IH]; cbn [first_refusal].
  - split; [reflexivity|intros _ ? []].
  - destruct (write_error o f c) as [e|] eqn:Hc.
    + split; [|discriminate]. intro H. rewrite (H c (or_introl eq_refl)) in Hc.
      discriminate.
    + rewrite <- IH. split.
      * intros H chunk Hin. apply H. now right.
      * intros H chunk [<-|Hin]; [exact Hc|now apply H].
Qed.

Lemma accepted_none_refused o f chunks :
  first_refusal o f chunks = None -> accepted o f chunks = chunks.
Proof.
  induction chunks as [|c rest IH]; cbn [first_refusal accepted]; [reflexivity|].
  destruct (write_error o f c); [discriminate|]. intro H. now rewrite IH.
Qed.



Lemma prints_run (lines : list Line) (k : Py unit) s :
  (fold_right (fun l c => print l ;; c) k lines) s =
  k (mkState (clock s) (environ_PATH s) (trace s ++ map Console lines)).
Proof.
  revert s. induction lines as [|l lines IH]; intro s.
  - cbn. rewrite app_nil_r. destruct s; reflexivity.
  - cbn [fold_right map]. unfold bind, print, emit. rewrite IH. cbn.
    rewrite <- app_assoc. reflexivity.
Qed.

(** [report_result_io] on a result, case by case. *)
Lemma report_result_io_run o audio_file r s :
  report_result_io o audio_file (Some r) s =
  let written := accepted o output_file (report_chunks audio_file r) in
  match open_error o output_file with
  | Some e => (Raised e, extended s 0 (map Console (success_lines r)))
  | None =>
      match close_error o output_file with
      | Some e' =>
          (Raised e',
           extended s 0 (map Console (success_lines r)
                         ++ FileOpenW output_file :: map (FileWrite output_file) written))
      | None =>
          match first_refusal o output_file (report_chunks audio_file r) with
          | Some e =>
              (Raised e,
               extended s 0 (map Console (success_lines r)
                             ++ FileOpenW output_file
                                :: map (FileWrite output_file) written
                                ++ [FileClose output_file]))
          | None =>
              (Returned tt,
               extended s 0 (map Console (success_lines r)
                             ++ report_events audio_file r
                             ++ [Console (ResultsSavedTo output_file)]))
          end
      end
  end.
Proof.
  unfold report_result_io.
  change (print BlankThenRule ;; print TranscriptionSuccessful ;; print Rule ;;
          print (TextIs (res_text r)) ;;
          print (LanguageIs (dict_get (res_language r) "Unknown")) ;;
          print (SegmentsCount (List.length (dict_get (res_segments r) []))) ;;
          write_report_io o audio_file r ;; print (ResultsSavedTo output_file))
    with (fold_right (fun l c => print l ;; c)
            (write_report_io o audio_file r ;; print (ResultsSavedTo output_file))
            (success_lines r)).
  rewrite prints_run, bind_run, write_report_io_run. cbv zeta.
  unfold extended. cbn [Nat.add clock environ_PATH trace].
  destruct (open_error o output_file) as [e|]; [reflexivity|].
  destruct (close_error o output_file) as [e'|].
  { rewrite <- app_assoc. reflexivity. }
  destruct (first_refusal o output_file (report_chunks audio_file r)) as [e|] eqn:Hr.
  { rewrite <- app_assoc. reflexivity. }
  rewrite (accepted_none_refused _ _ _ Hr).
  unfold print, emit, report_events. cbn [clock environ_PATH trace].
  rewrite <- !app_assoc. reflexivity.
Qed.



Lemma main_io_blocks o w s :
  main_io o w s =
  (sel <- select_input w ;;
   match sel with
   | None => ret tt
   | Some audio_file =>
       result <- transcribe_audio w audio_file "base" None ;;
       report_result_io o audio_file result
   end) s.
Proof.
  unfold main_io, select_input.
  rewrite bind_assoc, !bind_run.
  destruct (setup_ffmpeg w s) as [[ok|e] s1]; [|reflexivity].
  destruct ok; simpl; [|reflexivity].
  rewrite bind_assoc, !bind_run.
  destruct (discover_audio_files w s1) as [[l|e] s2]; [|reflexivity].
  destruct l as [|first rest].
  - reflexivity.
  - unfold bind, print, emit, ret, os_path_exists, os_path_getsize; simpl.
    destruct (stat w (S (clock s2)) first); reflexivity.
Qed.


(** With an output that refuses nothing, the blocks over an [Output] are
    [write_report], [report_result] and [main]. *)
Lemma write_report_io_willing audio_file result s :
  write_report_io willing_output audio_file result s = write_report audio_file result s.
Proof.
  rewrite write_report_io_run, (write_report_emits audio_file result s).
  cbn [open_error close_error willing_output].
  assert (Hnone : first_refusal willing_output output_file (report_chunks audio_file result)
                  = None) by (apply accepted_all; reflexivity).
  rewrite Hnone, (accepted_none_refused _ _ _ Hnone). reflexivity.
Qed.

Lemma report_result_io_willing audio_file result s :
  report_result_io willing_output audio_file result s = report_result audio_file result s.
Proof.
  destruct result as [r|]; [|reflexivity].
  unfold report_result_io, report_result.
  do 6 (apply bind_ext; [reflexivity|]; intros _ ?).
  apply bind_ext; [apply write_report_io_willing|reflexivity].
Qed.

Lemma main_io_willing w s : main_io willing_output w s = main w s.
Proof.
  rewrite main_io_blocks, main_blocks.
  apply bind_ext; [reflexivity|]. intros [a|] s1; [|reflexivity].
  apply bind_ext; [reflexivity|]. intros r s2. apply report_result_io_willing.
Qed.

(** The events of [report_result_io] on a result. *)
Lemma report_result_io_events o audio_file r s :
  events_of (report_result_io o audio_file (Some r)) s =
  (map Console (success_lines r) ++
   match open_error o output_file with
   | Some _ => []
   | None =>
       FileOpenW output_file
       :: map (FileWrite output_file)
              (accepted o output_file (report_chunks audio_file r))
       ++ match close_error o output_file with
          | Some _ => []
          | None =>
              FileClose output_file
              :: match first_refusal o output_file (report_chunks audio_file r) with
                 | Some _ => []
                 | None => [Console (ResultsSavedTo output_file)]
                 end
          end
   end)%list.
Proof.
  assert (Hrun := report_result_io_run o audio_file r s). cbv zeta in Hrun.
  destruct (open_error o output_file) as [e|].
  { apply (events_of_extended _ _ 0). rewrite Hrun. cbn [snd]. now rewrite app_nil_r. }
  destruct (close_error o output_file) as [e'|].
  { apply (events_of_extended _ _ 0). rewrite Hrun. cbn [snd]. now rewrite app_nil_r. }
  destruct (first_refusal o output_file (report_chunks audio_file r)) as [e|] eqn:Hr.
  - apply (events_of_extended _ _ 0). rewrite Hrun. reflexivity.
  - apply (events_of_extended _ _ 0). rewrite Hrun. cbn [snd].
    rewrite (accepted_none_refused _ _ _ Hr). unfold report_events.
    cbn [app]. rewrite <- app_assoc. reflexivity.
Qed.

Lemma report_result_io_file_events o audio_file r s :
  file_events (events_of (report_result_io o audio_file (Some r)) s) =
  match open_error o output_file with
  | Some _ => []
  | None =>
      FileOpenW output_file
      :: map (FileWrite output_file)
             (accepted o output_file (report_chunks audio_file r))
      ++ match close_error o output_file with
         | Some _ => []
         | None => [FileClose output_file]
         end
  end%list.
Proof.
  rewrite report_result_io_events, file_events_app, file_events_console. cbn [app].
  destruct (open_error o output_file); [reflexivity|].
  cbn [file_events filter is_file_event]. f_equal.
  fold (file_events
          (map (FileWrite output_file) (accepted o output_file (report_chunks audio_file r)) ++
           match close_error o output_file with
           | Some _ => []
           | None =>
               FileClose output_file
               :: match first_refusal o output_file (report_chunks audio_file r) with
                  | Some _ => []
                  | None => [Console (ResultsSavedTo output_file)]
                  end
           end)).
  rewrite file_events_app, file_events_writes. f_equal.
  destruct (close_error o output_file); [reflexivity|].
  destruct (first_refusal o output_file (report_chunks audio_file r)); reflexivity.
Qed.

Lemma report_result_io_written o audio_file r s :
  written_chunks output_file (events_of (report_result_io o audio_file (Some r)) s) =
  match open_error o output_file with
  | Some _ => []
  | None => accepted o output_file (report_chunks audio_file r)
  end.
Proof.
  rewrite written_chunks_file_events, report_result_io_file_events.
  destruct (open_error o output_file); [reflexivity|].
  cbn [written_chunks]. rewrite written_chunks_app, written_chunks_writes.
  destruct (close_error o output_file); cbn; apply app_nil_r.
Qed.


Lemma report_result_io_outcome o audio_file r s :
  fst (report_result_io o audio_file (Some r) s) =
  match open_error o output_file with
  | Some e => Raised e
  | None =>
      match close_error o output_file with
      | Some e' => Raised e'
      | None =>
          match first_refusal o output_file (report_chunks audio_file r) with
          | Some e => Raised e
          | None => Returned tt
          end
      end
  end.
Proof.
  rewrite report_result_io_run. cbv zeta.
  destruct (open_error o output_file); [reflexivity|].
  destruct (close_error o output_file); [reflexivity|].
  destruct (first_refusal o output_file (report_chunks audio_file r)); reflexivity.
Qed.







(* ================================================================== *)
(** * Further properties of the script *)

(** ** [setup_ffmpeg] *)

Lemma prefix_app (a b : string) : prefix a (a ++ b) = true.
Proof.
  induction a as [|c a IH]; simpl; [destruct b; reflexivity|].
  destruct (ascii_dec c c) as [_|Hne]; [exact IH|now destruct Hne].
Qed.

Lemma contains_unfold (needle hay : string) :
  PyStr.contains needle hay =
  prefix needle hay ||
  match hay with
  | "" => false
  | String _ rest => PyStr.contains needle rest
  end.
Proof. destruct hay; reflexivity. Qed.

Lemma contains_app (a b : string) : PyStr.contains a (a ++ b) = true.
Proof. rewrite contains_unfold, prefix_app. reflexivity. Qed.

(** X1.  What [setup_ffmpeg] does when the bundled ffmpeg directory cannot
    be found or examined.  When [os.stat] fails on it with an error that
    means "no such path" (ENOENT, ENOTDIR, EBADF, ELOOP, or a ValueError
    for a path that cannot be encoded), the function prints that ffmpeg was not found and
    answers [False].  When [os.stat] fails with any other error, such as
    a refused permission, the error is raised again and nothing is
    printed.  In both cases the search path is left as it was. *)
Theorem setup_ffmpeg_without_directory (w : World) (s : State) (e : PyException) :
  stat w (clock s) (ffmpeg_dir w) = inl e ->
  (pathlib_ignore_error e = true \/ is_ValueError e = true ->
   setup_ffmpeg w s =
   (Returned false,
    mkState (S (clock s)) (environ_PATH s) (trace s ++ [Console FfmpegNotFound]))) /\
  (pathlib_ignore_error e = false -> is_ValueError e = false ->
   setup_ffmpeg w s = (Raised e, mkState (S (clock s)) (environ_PATH s) (trace s))).
Proof.
  intro Hstat. rewrite setup_ffmpeg_run, Hstat. split.
  - intros [Hign|Hval].
    + rewrite Hign. reflexivity.
    + rewrite Hval, orb_true_r. reflexivity.
  - intros Hign Hval. rewrite Hign, Hval. reflexivity.
Qed.

Lemma setup_ffmpeg_without_directory_witness :
  fst (setup_ffmpeg no_decoder_world (initial_state "/usr/bin")) = Returned false /\
  fst (setup_ffmpeg forbidden_world (initial_state "/usr/bin")) = Raised permission_denied.
Proof.
  destruct (setup_ffmpeg_without_directory no_decoder_world (initial_state "/usr/bin")
              no_such_file eq_refl) as [Hmissing _].
  destruct (setup_ffmpeg_without_directory forbidden_world (initial_state "/usr/bin")
              permission_denied eq_refl) as [_ Hforbidden].
  rewrite (Hmissing (or_introl eq_refl)), (Hforbidden eq_refl eq_refl).
  split; reflexivity.
Defined.

(** X2.  [setup_ffmpeg] is idempotent on the search path: called again
    while the directory is still there, it answers [True] again, leaves
    the path as the first call made it and prints nothing, so the
    directory is never put on the path twice. *)
Theorem setup_ffmpeg_twice (w : World) (s : State) (size1 size2 : N) :
  stat w (clock s) (ffmpeg_dir w) = inr size1 ->
  stat w (S (clock s)) (ffmpeg_dir w) = inr size2 ->
  let s1 := snd (setup_ffmpeg w s) in
  fst (setup_ffmpeg w s1) = Returned true /\
  environ_PATH (snd (setup_ffmpeg w s1)) = environ_PATH s1 /\
  trace (snd (setup_ffmpeg w s1)) = trace s1.
Proof.
  intros H1 H2 s1.
  assert (Hs1 : clock s1 = S (clock s) /\
                PyStr.contains (ffmpeg_dir w) (environ_PATH s1) = true).
  { subst s1. rewrite setup_ffmpeg_run, H1.
    destruct (PyStr.contains (ffmpeg_dir w) (environ_PATH s)) eqn:Hin.
    - split; [reflexivity|exact Hin].
    - split; [reflexivity|apply contains_app]. }
  destruct Hs1 as [Hclock Hin].
  rewrite (setup_ffmpeg_run w s1), Hclock, H2, Hin.
  repeat split.
Qed.

Lemma setup_ffmpeg_twice_witness :
  let w := steady_world ["a.mp3"] in
  let s1 := snd (setup_ffmpeg w (initial_state "/usr/bin")) in
  environ_PATH (snd (setup_ffmpeg w s1)) = "/opt/ffmpeg/bin:/usr/bin" /\
  trace (snd (setup_ffmpeg w s1)) = [Console (AddedFfmpegToPath "/opt/ffmpeg/bin")].
Proof.
  intros w s1.
  destruct (setup_ffmpeg_twice w (initial_state "/usr/bin") 2048%N 2048%N
              eq_refl eq_refl) as (_ & Hpath & Htrace).
  fold s1 in Hpath, Htrace. rewrite Hpath, Htrace. split; reflexivity.
Defined.

(** ** The early exits of [main] *)

(** What [select_input] answers, from what the filesystem shows. *)
Lemma select_input_outcome w s :
  fst (select_input w s) =
  match stat w (clock s) (ffmpeg_dir w) with
  | inl err =>
      if pathlib_ignore_error err || is_ValueError err
      then Returned None
      else Raised err
  | inr _ =>
      match scans w (S (clock s)) audio_extensions with
      | [] => Returned None
      | first :: _ =>
          match stat w (7 + clock s) first with
          | inl e => Raised e
          | inr _ => Returned (Some first)
          end
      end
  end.
Proof.
  unfold select_input. rewrite bind_run, setup_ffmpeg_run.
  destruct (stat w (clock s) (ffmpeg_dir w)) as [err|size].
  { destruct (pathlib_ignore_error err || is_ValueError err);
      reflexivity. }
  assert (Hgo : forall s1, clock s1 = S (clock s) ->
            fst ((audio_files <- discover_audio_files w ;;
                  match audio_files with
                  | [] => print NoAudioFilesFound ;; ret None
                  | first :: _ =>
                      print (FoundAudioFiles audio_files) ;;
                      print Rule ;;
                      print TestingBaseModel ;;
                      print Rule ;;
                      print (UsingAudioFile first) ;;
                      found <- os_path_exists w first ;;
                      print (FileExists found) ;;
                      size <- os_path_getsize w first ;;
                      print (FileSize size) ;;
                      ret (Some first)
                  end) s1) =
            match scans w (S (clock s)) audio_extensions with
            | [] => Returned None
            | first :: _ =>
                match stat w (7 + clock s) first with
                | inl e => Raised e
                | inr _ => Returned (Some first)
                end
            end).
  { intros s1 Hclock. rewrite bind_run, discover_audio_files_run, Hclock.
    cbv beta iota.
    destruct (scans w (S (clock s)) audio_extensions) as [|first rest]; [reflexivity|].
    run.
    destruct (stat w (S (S (S (S (S (S (S (clock s)))))))) first); reflexivity. }
  destruct (PyStr.contains (ffmpeg_dir w) (environ_PATH s));
    cbn [negb]; apply Hgo; reflexivity.
Qed.

(** [main] ends as [select_input] does: normally, unless the size probe
    raised. *)
Lemma main_outcome w s :
  fst (main w s) =
  match fst (select_input w s) with
  | Returned _ => Returned tt
  | Raised e => Raised e
  end.
Proof.
  destruct (main_cases w s) as (lines & _ & _ & [[_ Hno]|Hrun]).
  - rewrite main_blocks, bind_run.
    destruct (select_input w s) as [[[a|]|e] s1]; cbn [fst].
    + destruct (Hno a eq_refl).
    + reflexivity.
    + reflexivity.
  - destruct Hrun as (a & s1 & r & s2 & Hsel & _ & _ & Hout & _).
    rewrite Hsel, Hout. reflexivity.
Qed.

(** X3.  Without the decoder, [main] stops at once.  When the ffmpeg
    directory does not exist ([os.stat] fails with an error that means "no
    such path"), [main] has made one query of the filesystem, printed one
    line, and ends normally; when the directory cannot be examined
    ([os.stat] fails with another error), that error leaves [main] and
    nothing is printed.  In both cases the search path is untouched, the
    directory is not scanned, the capability is not called and no file is
    written, whatever the output. *)
Theorem main_without_decoder (w : World) (s : State) (err : PyException) :
  stat w (clock s) (ffmpeg_dir w) = inl err ->
  (pathlib_ignore_error err = true \/ is_ValueError err = true ->
   forall o,
     main_io o w s =
     (Returned tt,
      mkState (S (clock s)) (environ_PATH s) (trace s ++ [Console FfmpegNotFound])) /\
     main w s = main_io o w s) /\
  (pathlib_ignore_error err = false -> is_ValueError err = false ->
   forall o,
     main_io o w s = (Raised err, mkState (S (clock s)) (environ_PATH s) (trace s)) /\
     main w s = main_io o w s).
Proof.
  intro Hstat.
  assert (Hsame : forall o, main w s = main_io o w s).
  { intro o. unfold main, main_io. rewrite !bind_run, setup_ffmpeg_run, Hstat.
    destruct (pathlib_ignore_error err || is_ValueError err);
      reflexivity. }
  split.
  - intros Hign o. split; [|apply Hsame].
    unfold main_io. rewrite bind_run, setup_ffmpeg_run, Hstat.
    destruct Hign as [Hign|Hval].
    + rewrite Hign. reflexivity.
    + rewrite Hval, orb_true_r. reflexivity.
  - intros Hign Hval o. split; [|apply Hsame].
    unfold main_io. rewrite bind_run, setup_ffmpeg_run, Hstat.
    rewrite Hign, Hval. reflexivity.
Qed.

Lemma main_without_decoder_witness :
  main no_decoder_world (initial_state "/usr/bin") =
  (Returned tt, mkState 1 "/usr/bin" [Console FfmpegNotFound]) /\
  main forbidden_world (initial_state "/usr/bin") =
  (Raised permission_denied, mkState 1 "/usr/bin" []).
Proof.
  destruct (main_without_decoder no_decoder_world (initial_state "/usr/bin")
              no_such_file eq_refl) as [Hmissing _].
  destruct (main_without_decoder forbidden_world (initial_state "/usr/bin")
              permission_denied eq_refl) as [_ Hforbidden].
  destruct (Hmissing (or_introl eq_refl) willing_output) as [H1 H1'].
  destruct (Hforbidden eq_refl eq_refl willing_output) as [H2 H2'].
  rewrite H1', H1, H2', H2. split; reflexivity.
Defined.

(** X4.  When the decoder is set up and the discovery finds no candidate,
    [main] says so and ends normally: after what [setup_ffmpeg] printed
    there is the single line "No audio files found", the model is not
    loaded, nothing is transcribed and no file is written. *)
Theorem main_without_input (w : World) (s : State) :
  fst (setup_ffmpeg w s) = Returned true ->
  fst (discover_audio_files w (snd (setup_ffmpeg w s))) = Returned [] ->
  fst (main w s) = Returned tt /\
  events_of (main w) s =
    (events_of (setup_ffmpeg w) s ++ [Console NoAudioFilesFound])%list /\
  load_calls (events_of (main w) s) = [] /\
  transcribe_calls (events_of (main w) s) = [] /\
  file_events (events_of (main w) s) = [].
Proof.
  intros Hsetup Hdisc.
  destruct (setup_ffmpeg_cases w s) as (out & lines0 & n0 & path0 & Hrun & _).
  rewrite Hrun in Hsetup, Hdisc. cbn [fst snd] in Hsetup, Hdisc.
  subst out.
  assert (Hmain : main w s =
                  (Returned tt,
                   mkState (5 + n0) path0
                           ((trace s ++ map Console lines0) ++ [Console NoAudioFilesFound]))).
  { rewrite discover_audio_files_run in Hdisc. cbn [fst clock] in Hdisc.
    assert (Hscan : scans w n0 audio_extensions = []).
    { exact (f_equal (fun o => match o with Returned l => l | Raised _ => [] end) Hdisc). }
    unfold main. rewrite bind_run, Hrun. cbn [negb]. rewrite bind_run.
    rewrite discover_audio_files_run. cbn [clock]. rewrite Hscan. reflexivity. }
  assert (Hev : events_of (main w) s = (map Console lines0 ++ [Console NoAudioFilesFound])%list).
  { unfold events_of. rewrite Hmain. cbn [snd trace].
    rewrite <- app_assoc. apply skipn_length_app. }
  assert (Hsev : events_of (setup_ffmpeg w) s = map Console lines0).
  { unfold events_of. rewrite Hrun. cbn [snd trace]. apply skipn_length_app. }
  rewrite Hmain, Hev, Hsev. cbn [fst].
  rewrite load_calls_app, transcribe_calls_app, file_events_app.
  rewrite load_calls_console, transcribe_calls_console, file_events_console.
  repeat split.
Qed.

Lemma main_without_input_witness :
  let w := steady_world ["notes.txt"; "A.MP3"] in
  fst (main w (initial_state "/usr/bin")) = Returned tt /\
  events_of (main w) (initial_state "/usr/bin") =
    [Console (AddedFfmpegToPath "/opt/ffmpeg/bin"); Console NoAudioFilesFound].
Proof.
  intro w.
  destruct (main_without_input w (initial_state "/usr/bin") eq_refl eq_refl)
    as (Hout & Hev & _).
  split; [exact Hout|]. rewrite Hev. reflexivity.
Defined.

(** X5.  A failed size probe ends [main].  When the decoder is set up,
    the discovery yields a first candidate and [os.stat] fails on that
    candidate at the moment [main] asks for its size (line 91), the error
    leaves [main], whatever the output: the model has not been loaded,
    nothing has been transcribed and no file has been opened; the last
    thing printed is whether the file existed one query earlier. *)
Theorem failed_size_probe_ends_main
        (o : Output) (w : World) (s : State) (first : string) (rest : list string)
        (e : PyException) :
  fst (setup_ffmpeg w s) = Returned true ->
  fst (discover_audio_files w (snd (setup_ffmpeg w s))) = Returned (first :: rest) ->
  stat w (S (clock (snd (discover_audio_files w (snd (setup_ffmpeg w s)))))) first
  = inl e ->
  fst (main_io o w s) = Raised e /\
  fst (main w s) = Raised e /\
  load_calls (events_of (main_io o w) s) = [] /\
  transcribe_calls (events_of (main_io o w) s) = [] /\
  file_events (events_of (main_io o w) s) = [] /\
  exists found, last (console (events_of (main_io o w) s)) Rule = FileExists found.
Proof.
  intros Hsetup Hdisc Hprobe.
  destruct (setup_ffmpeg_cases w s) as (out & lines0 & n0 & path0 & Hrun & _).
  rewrite Hrun in Hsetup, Hdisc, Hprobe. cbn [fst snd] in Hsetup, Hdisc, Hprobe.
  subst out.
  rewrite discover_audio_files_run in Hdisc, Hprobe.
  cbn [fst snd clock] in Hdisc, Hprobe.
  assert (Hscan : scans w n0 audio_extensions = first :: rest).
  { exact (f_equal (fun o => match o with Returned l => l | Raised _ => [] end) Hdisc). }
  set (shown := [FoundAudioFiles (first :: rest); Rule; TestingBaseModel; Rule;
                 UsingAudioFile first;
                 FileExists (match stat w (5 + n0) first with
                             | inr _ => true | inl _ => false end)]).
  assert (Hio : main_io o w s =
                (Raised e, mkState (S (S (5 + n0))) path0
                                   (trace s ++ map Console (lines0 ++ shown)))).
  { unfold main_io. rewrite bind_run, Hrun. cbn [negb]. rewrite bind_run.
    rewrite discover_audio_files_run. cbn [clock]. rewrite Hscan.
    run. simpl in Hprobe. rewrite Hprobe. rewrite map_app. flatten_trace. reflexivity. }
  assert (Hmain : fst (main w s) = Raised e).
  { unfold main. rewrite bind_run, Hrun. cbn [negb]. rewrite bind_run.
    rewrite discover_audio_files_run. cbn [clock]. rewrite Hscan.
    run. simpl in Hprobe. rewrite Hprobe. reflexivity. }
  assert (Hev : events_of (main_io o w) s = map Console (lines0 ++ shown)).
  { unfold events_of. rewrite Hio. cbn [snd trace]. apply skipn_length_app. }
  rewrite Hio, Hev, load_calls_console, transcribe_calls_console, file_events_console,
    console_map.
  split; [reflexivity|]. split; [exact Hmain|]. repeat (split; [reflexivity|]).
  exists (match stat w (5 + n0) first with inr _ => true | inl _ => false end).
  subst shown.
  change [FoundAudioFiles (first :: rest); Rule; TestingBaseModel; Rule;
          UsingAudioFile first;
          FileExists (match stat w (5 + n0) first with
                      | inr _ => true | inl _ => false end)]
    with ([FoundAudioFiles (first :: rest); Rule; TestingBaseModel; Rule;
           UsingAudioFile first]
          ++ [FileExists (match stat w (5 + n0) first with
                          | inr _ => true | inl _ => false end)])%list.
  rewrite app_assoc. apply last_last.
Qed.

Lemma failed_size_probe_ends_main_witness :
  fst (main_io locked_output dangling_world (initial_state "/usr/bin"))
  = Raised no_such_file /\
  file_events (events_of (main_io locked_output dangling_world) (initial_state "/usr/bin"))
  = [].
Proof.
  destruct (failed_size_probe_ends_main locked_output dangling_world
              (initial_state "/usr/bin") "ghost.mp3" [] no_such_file
              eq_refl eq_refl eq_refl) as (Hout & _ & _ & _ & Hfiles & _).
  split; assumption.
Defined.

(** X6.  [main] always asks for the base model and never forces a
    language: every [whisper.load_model] call of a run is for "base" and
    every [model.transcribe] call is made without the language parameter;
    the model is loaded at most once. *)
Theorem main_uses_base_model_and_auto_detect (w : World) (s : State) :
  (forall model_size, In model_size (load_calls (events_of (main w) s)) ->
                      model_size = "base") /\
  (forall audio passed, In (audio, passed) (transcribe_calls (events_of (main w) s)) ->
                        passed = None) /\
  List.length (load_calls (events_of (main w) s)) <= 1.
Proof.
  destruct (main_cases w s) as (lines & _ & _ & [[Hev _]|Hrun]).
  - rewrite Hev, load_calls_console, transcribe_calls_console.
    split; [intros ? []|]. split; [intros ? ? []|]. simpl. lia.
  - destruct Hrun as (a & s1 & r & s2 & _ & _ & _ & _ & Hev).
    rewrite Hev, !load_calls_app, !transcribe_calls_app.
    rewrite load_calls_console, transcribe_calls_console.
    destruct (report_result_calls a r s2) as [-> ->]. rewrite !app_nil_r. cbn [app].
    rewrite transcribe_audio_events.
    destruct (stat w (clock s1) a).
    { split; [intros ? []|]. split; [intros ? ? []|]. simpl. lia. }
    destruct (load_model w "base") as [e|model].
    { split; [intros m [<-|[]]; reflexivity|]. split; [intros ? ? []|]. simpl. lia. }
    destruct (transcribe model a (passed_language None)).
    + split; [intros m [<-|[]]; reflexivity|].
      split; [intros audio passed [H|[]]; now injection H as _ <-|]. simpl. lia.
    + split; [intros m [<-|[]]; reflexivity|].
      split; [intros audio passed [H|[]]; now injection H as _ <-|]. simpl. lia.
Qed.

Lemma main_uses_base_model_and_auto_detect_witness :
  let w := steady_world ["b.wav"; "a.mp3"] in
  transcribe_calls (events_of (main w) (initial_state "/usr/bin")) = [("a.mp3", None)] /\
  forall audio passed,
    In (audio, passed) (transcribe_calls (events_of (main w) (initial_state "/usr/bin"))) ->
    passed = None.
Proof.
  intro w.
  destruct (main_uses_base_model_and_auto_detect w (initial_state "/usr/bin"))
    as (_ & Hauto & _).
  split; [vm_compute; reflexivity|exact Hauto].
Defined.

(** X7.  [transcribe_audio] returns a result exactly when the audio file
    exists and the capability, called for the given model size with the
    language the function passes on, gives that result; the result is
    handed back as it is. *)
Theorem transcribe_audio_returns_capability_result
        (w : World) (audio_path model_size : string) (language : option string)
        (s : State) (result : Result) :
  fst (transcribe_audio w audio_path model_size language s) = Returned (Some result) <->
  (exists size, stat w (clock s) audio_path = inr size) /\
  capability w audio_path model_size (passed_language language) = inr result.
Proof.
  rewrite transcribe_audio_value.
  destruct (stat w (clock s) audio_path) as [err|size].
  - split; [discriminate|]. intros [[size H] _]. discriminate.
  - destruct (capability w audio_path model_size (passed_language language)) as [e|r].
    + split; [discriminate|]. intros [_ H]. discriminate.
    + split.
      * intro H. injection H as ->. split; [eauto|reflexivity].
      * intros [_ H]. now injection H as ->.
Qed.

Lemma transcribe_audio_returns_capability_result_witness :
  fst (transcribe_audio (steady_world ["a.mp3"]) "a.mp3" "base" None
                        (initial_state "/usr/bin")) = Returned (Some hello_result).
Proof.
  apply (transcribe_audio_returns_capability_result
           (steady_world ["a.mp3"]) "a.mp3" "base" None (initial_state "/usr/bin")
           hello_result).
  split; [exists 2048%N; reflexivity|reflexivity].
Defined.

(** X8.  The order of [transcribe_audio]'s steps.  The model is loaded
    only once the audio file has been found, and at most once; the
    transcription is asked for only once the model is loaded, and at most
    once.  The function makes exactly one filesystem call and leaves the
    search path alone. *)
Theorem transcribe_audio_call_discipline
        (w : World) (audio_path model_size : string) (language : option string)
        (s : State) :
  let evs := events_of (transcribe_audio w audio_path model_size language) s in
  (load_calls evs = [model_size] <-> exists size, stat w (clock s) audio_path = inr size) /\
  (load_calls evs = [] <-> exists err, stat w (clock s) audio_path = inl err) /\
  (transcribe_calls evs <> [] <->
   (exists size, stat w (clock s) audio_path = inr size) /\
   exists model, load_model w model_size = inr model) /\
  List.length (transcribe_calls evs) <= 1 /\
  clock (snd (transcribe_audio w audio_path model_size language s)) = S (clock s) /\
  environ_PATH (snd (transcribe_audio w audio_path model_size language s)) = environ_PATH s.
Proof.
  intro evs. subst evs.
  rewrite transcribe_audio_events, transcribe_audio_run.
  destruct (stat w (clock s) audio_path) as [err|size].
  - cbn [load_calls transcribe_calls snd extended clock environ_PATH Nat.add].
    split; [split; [discriminate|intros [? H]; discriminate]|].
    split; [split; eauto|].
    split; [split; [intro H; now destruct H|intros [[? H] _]; discriminate]|].
    split; [simpl; lia|]. split; reflexivity.
  - destruct (load_model w model_size) as [e|model].
    + cbn [app load_calls transcribe_calls snd extended clock environ_PATH Nat.add].
      split; [split; eauto|].
      split; [split; [discriminate|intros [? H]; discriminate]|].
      split; [split; [intro H; now destruct H|intros [_ [? H]]; discriminate]|].
      split; [simpl; lia|]. split; reflexivity.
    + destruct (transcribe model audio_path (passed_language language));
        cbn [app load_calls transcribe_calls snd extended clock environ_PATH Nat.add].
      * split; [split; eauto|].
        split; [split; [discriminate|intros [? H]; discriminate]|].
        split; [split; [eauto|discriminate]|].
        split; [simpl; lia|]. split; reflexivity.
      * split; [split; eauto|].
        split; [split; [discriminate|intros [? H]; discriminate]|].
        split; [split; [eauto|discriminate]|].
        split; [simpl; lia|]. split; reflexivity.
Qed.

Lemma transcribe_audio_call_discipline_witness :
  load_calls (events_of (transcribe_audio failing_world "a.mp3" "base" None)
                        (initial_state "/usr/bin")) = ["base"] /\
  ~ transcribe_calls (events_of (transcribe_audio failing_world "a.mp3" "base" None)
                                (initial_state "/usr/bin")) <> [].
Proof.
  destruct (transcribe_audio_call_discipline failing_world "a.mp3" "base" None
              (initial_state "/usr/bin")) as (Hload & _ & Hcalls & _).
  split.
  - apply Hload. exists 2048%N. reflexivity.
  - intro H. apply Hcalls in H. destruct H as [_ [model H]]. discriminate.
Defined.

(** ** The discovery *)

Lemma scans_members w exts : forall t name,
  In name (scans w t exts) <->
  exists k ext,
    nth_error exts k = Some ext /\
    In name (scandir w (k + t) ".") /\
    PyStr.fnmatch ("*" ++ ext) name = true.
Proof.
  induction exts as [|e exts IH]; intros t name.
  - split; [intros []|]. intros (k & ext & H & _). destruct k; discriminate.
  - cbn [scans]. rewrite in_app_iff, filter_In, IH. split.
    + intros [[Hin Hm]|(k & ext & Hk & Hin & Hm)].
      * exists 0, e. repeat split; assumption.
      * exists (S k), ext. rewrite Nat.add_succ_r in Hin. repeat split; assumption.
    + intros (k & ext & Hk & Hin & Hm). destruct k as [|k].
      * injection Hk as ->. left. split; assumption.
      * right. exists k, ext. rewrite Nat.add_succ_r. repeat split; assumption.
Qed.

Lemma stable_discovery w s listing :
  (forall k, k < 5 -> scandir w (k + clock s) "." = listing) ->
  fst (discover_audio_files w s) =
  Returned (flat_map (fun ext => filter (PyStr.fnmatch ("*" ++ ext)) listing)
                     audio_extensions) /\
  Permutation
    (flat_map (fun ext => filter (PyStr.fnmatch ("*" ++ ext)) listing) audio_extensions)
    (filter has_audio_extension listing).
Proof.
  intro Hstable. split.
  - rewrite discover_audio_files_run. cbn [fst].
    now rewrite (scans_stable w (clock s) listing Hstable).
  - apply (flat_map_grouped_permutation string string (fun e => PyStr.fnmatch ("*" ++ e))
             audio_extensions listing audio_extensions_nodup).
    intros e1 e2 name. apply audio_extensions_disjoint.
Qed.

Lemma filter_all_false {A} (p : A -> bool) (l : list A) :
  (forall x, In x l -> p x = false) -> filter p l = [].
Proof.
  induction l as [|x l IH]; intro H; [reflexivity|].
  cbn [filter]. rewrite (H x (or_introl eq_refl)). apply IH.
  intros y Hy. apply H. now right.
Qed.

Lemma has_audio_extension_iff name :
  has_audio_extension name = true <->
  exists ext, In ext audio_extensions /\ ends_with ext name.
Proof.
  unfold has_audio_extension. rewrite existsb_exists. split.
  - intros (ext & Hext & Hm). exists ext. split; [exact Hext|].
    apply (fnmatch_star_literal ext name (audio_extensions_literal _ Hext)), Hm.
  - intros (ext & Hext & He). exists ext. split; [exact Hext|].
    apply (fnmatch_star_literal ext name (audio_extensions_literal _ Hext)), He.
Qed.

(** X9.  The discovery works under a directory that changes while it is
    scanned: a name is among the candidates exactly when, for some
    position [k] in the allow-list, the directory lists it at the moment
    of the scan number [k] and it ends with the extension number [k].
    So every candidate was really listed with an allowed extension, and
    no name is made up. *)
Theorem discovered_names_were_listed (w : World) (s : State) :
  exists found,
    fst (discover_audio_files w s) = Returned found /\
    forall name,
      In name found <->
      exists k ext,
        nth_error audio_extensions k = Some ext /\
        In name (scandir w (k + clock s) ".") /\
        ends_with ext name.
Proof.
  exists (scans w (clock s) audio_extensions).
  rewrite discover_audio_files_run. split; [reflexivity|].
  intro name. rewrite scans_members. split.
  - intros (k & ext & Hk & Hin & Hm). exists k, ext.
    repeat split; try assumption.
    apply (fnmatch_star_literal ext name
             (audio_extensions_literal _ (nth_error_In _ _ Hk))), Hm.
  - intros (k & ext & Hk & Hin & He). exists k, ext.
    repeat split; try assumption.
    apply (fnmatch_star_literal ext name
             (audio_extensions_literal _ (nth_error_In _ _ Hk))), He.
Qed.

Lemma discovered_names_were_listed_witness :
  exists found,
    fst (discover_audio_files (steady_world ["talk.flac"; "notes.txt"])
                              (initial_state "/usr/bin")) = Returned found /\
    In "talk.flac" found.
Proof.
  destruct (discovered_names_were_listed (steady_world ["talk.flac"; "notes.txt"])
                                         (initial_state "/usr/bin"))
    as (found & Hrun & Hin).
  exists found. split; [exact Hrun|].
  apply Hin. exists 3, ".flac". split; [reflexivity|]. split; [now left|].
  now exists "talk".
Defined.

(** X10.  Over a directory that does not change during the scans and
    lists no name twice, the discovery lists no candidate twice, and it
    finds no more candidates than the directory has entries. *)
Theorem discovery_has_no_duplicates (w : World) (s : State) (listing : list string) :
  (forall k, k < 5 -> scandir w (k + clock s) "." = listing) ->
  NoDup listing ->
  exists found,
    fst (discover_audio_files w s) = Returned found /\
    NoDup found /\
    List.length found <= List.length listing.
Proof.
  intros Hstable Hnd.
  destruct (stable_discovery w s listing Hstable) as [Hrun Hperm].
  eexists. split; [exact Hrun|]. split.
  - apply (Permutation_NoDup (Permutation_sym Hperm)). now apply NoDup_filter.
  - rewrite (Permutation_length Hperm). apply filter_length_le.
Qed.

Lemma discovery_has_no_duplicates_witness :
  exists found,
    fst (discover_audio_files (steady_world ["b.wav"; "a.mp3"; "a.mp3.wav"])
                              (initial_state "/usr/bin")) = Returned found /\
    NoDup found.
Proof.
  destruct (discovery_has_no_duplicates
              (steady_world ["b.wav"; "a.mp3"; "a.mp3.wav"]) (initial_state "/usr/bin")
              ["b.wav"; "a.mp3"; "a.mp3.wav"] (fun k _ => eq_refl))
    as (found & Hrun & Hnd & _).
  - repeat (constructor; [simpl; intuition discriminate|]). constructor.
  - exists found. split; assumption.
Defined.

(** X11.  Over a directory that does not change during the scans, the
    discovery comes back empty exactly when no entry of the directory
    ends with an extension of the allow-list; this is the case in which
    [main] reports that there is no audio file. *)
Theorem discovery_empty_iff_no_audio_entry
        (w : World) (s : State) (listing : list string) :
  (forall k, k < 5 -> scandir w (k + clock s) "." = listing) ->
  (fst (discover_audio_files w s) = Returned [] <->
   forall name ext, In name listing -> In ext audio_extensions -> ~ ends_with ext name).
Proof.
  intro Hstable.
  destruct (stable_discovery w s listing Hstable) as [Hrun Hperm].
  rewrite Hrun. split.
  - intros H name ext Hin Hext Hends.
    assert (Hnil : flat_map (fun e => filter (PyStr.fnmatch ("*" ++ e)) listing)
                            audio_extensions = []).
    { exact (f_equal (fun o => match o with Returned l => l | Raised _ => [] end) H). }
    rewrite Hnil in Hperm. apply Permutation_nil in Hperm.
    assert (Hname : In name (filter has_audio_extension listing)).
    { apply filter_In. split; [exact Hin|]. apply has_audio_extension_iff. eauto. }
    rewrite Hperm in Hname. destruct Hname.
  - intro Hnone.
    assert (Hnil : filter has_audio_extension listing = []).
    { apply filter_all_false. intros x Hin.
      destruct (has_audio_extension x) eqn:Hx; [|reflexivity].
      apply has_audio_extension_iff in Hx. destruct Hx as (ext & Hext & Hends).
      destruct (Hnone x ext Hin Hext Hends). }
    rewrite Hnil in Hperm. apply Permutation_sym, Permutation_nil in Hperm.
    now rewrite Hperm.
Qed.

Lemma discovery_empty_iff_no_audio_entry_witness :
  fst (discover_audio_files (steady_world ["notes.txt"; "A.MP3"])
                            (initial_state "/usr/bin")) = Returned [] /\
  ~ ends_with ".mp3" "A.MP3".
Proof.
  destruct (discovery_empty_iff_no_audio_entry
              (steady_world ["notes.txt"; "A.MP3"]) (initial_state "/usr/bin")
              ["notes.txt"; "A.MP3"] (fun k _ => eq_refl)) as [Hnone _].
  split; [reflexivity|].
  apply (Hnone eq_refl "A.MP3" ".mp3"); simpl; tauto.
Defined.

Lemma flat_map_head {A K} (f : K -> list A) (keys : list K) (x : A) (rest : list A) :
  flat_map f keys = x :: rest ->
  exists before k after tl,
    keys = (before ++ k :: after)%list /\
    (forall k', In k' before -> f k' = []) /\
    f k = x :: tl.
Proof.
  induction keys as [|k keys IH]; [discriminate|].
  cbn [flat_map]. destruct (f k) as [|y tl] eqn:Hk.
  - intro H. destruct (IH H) as (before & k0 & after & tl & -> & Hbefore & Hk0).
    exists (k :: before), k0, after, tl. split; [reflexivity|]. split; [|exact Hk0].
    intros k' [<-|Hin]; [exact Hk|now apply Hbefore].
  - intro H. injection H as -> _.
    exists [], k, keys, tl. split; [reflexivity|]. split; [intros k' []|exact Hk].
Qed.

Lemma filter_head {A} (p : A -> bool) (l : list A) (x : A) (tl : list A) :
  filter p l = x :: tl ->
  exists l1 l2,
    l = (l1 ++ x :: l2)%list /\ (forall y, In y l1 -> p y = false) /\ p x = true.
Proof.
  induction l as [|y l IH]; [discriminate|].
  cbn [filter]. destruct (p y) eqn:Hy.
  - intro H. injection H as -> _.
    exists [], l. split; [reflexivity|]. split; [intros z []|exact Hy].
  - intro H. destruct (IH H) as (l1 & l2 & -> & Hl1 & Hx).
    exists (y :: l1), l2. split; [reflexivity|]. split; [|exact Hx].
    intros z [<-|Hin]; [exact Hy|now apply Hl1].
Qed.

Lemma filter_nil_all {A} (p : A -> bool) (l : list A) :
  filter p l = [] -> forall x, In x l -> p x = false.
Proof.
  induction l as [|y l IH]; intros H x Hin; [destruct Hin|].
  cbn [filter] in H. destruct (p y) eqn:Hy; [discriminate|].
  destruct Hin as [<-|Hin]; [exact Hy|now apply IH].
Qed.

(** X12.  Which candidate comes first, hence which file [main]
    transcribes.  Over a directory that does not change during the scans,
    the first candidate belongs to the earliest extension of the
    allow-list that any entry has, and among the entries with that
    extension it is the first in the enumeration: no entry listed before
    it has this extension, and no entry at all has an earlier one.  An
    .mp3 file is thus preferred to a .wav file listed before it. *)
Theorem first_candidate_follows_allow_list_priority
        (w : World) (s : State) (listing : list string)
        (first : string) (rest : list string) :
  (forall k, k < 5 -> scandir w (k + clock s) "." = listing) ->
  fst (discover_audio_files w s) = Returned (first :: rest) ->
  exists earlier ext later skipped remaining,
    audio_extensions = (earlier ++ ext :: later)%list /\
    listing = (skipped ++ first :: remaining)%list /\
    ends_with ext first /\
    (forall name, In name skipped -> ~ ends_with ext name) /\
    (forall e name, In e earlier -> In name listing -> ~ ends_with e name).
Proof.
  intros Hstable Hfound.
  destruct (stable_discovery w s listing Hstable) as [Hrun _].
  rewrite Hrun in Hfound.
  assert (Hhead : flat_map (fun e => filter (PyStr.fnmatch ("*" ++ e)) listing)
                           audio_extensions = first :: rest).
  { exact (f_equal (fun o => match o with Returned l => l | Raised _ => [] end) Hfound). }
  destruct (flat_map_head _ _ _ _ Hhead) as (earlier & ext & later & tl & Hexts & Hearlier & Hext).
  destruct (filter_head _ _ _ _ Hext) as (skipped & remaining & Hlisting & Hskipped & Hfirst).
  assert (Hlit : forall e, In e (earlier ++ ext :: later)%list -> literal e = true).
  { intros e He. apply audio_extensions_literal. now rewrite Hexts. }
  exists earlier, ext, later, skipped, remaining.
  split; [exact Hexts|]. split; [exact Hlisting|]. split; [|split].
  - apply (fnmatch_star_literal ext first); [|exact Hfirst].
    apply Hlit, in_or_app. right. now left.
  - intros name Hin Hends.
    apply (fnmatch_star_literal ext name) in Hends.
    + rewrite (Hskipped name Hin) in Hends. discriminate.
    + apply Hlit, in_or_app. right. now left.
  - intros e name He Hin Hends.
    apply (fnmatch_star_literal e name) in Hends.
    + rewrite (filter_nil_all _ _ (Hearlier e He) name Hin) in Hends. discriminate.
    + apply Hlit, in_or_app. now left.
Qed.

Lemma first_candidate_follows_allow_list_priority_witness :
  let listing := ["b.wav"; "x.ogg"; "a.mp3"; "c.mp3"] in
  fst (discover_audio_files (steady_world listing) (initial_state "/usr/bin"))
  = Returned ["a.mp3"; "c.mp3"; "b.wav"; "x.ogg"] /\
  exists ext skipped remaining,
    listing = (skipped ++ "a.mp3" :: remaining)%list /\ ends_with ext "a.mp3" /\
    forall name, In name skipped -> ~ ends_with ext name.
Proof.
  intro listing.
  assert (Hrun : fst (discover_audio_files (steady_world listing) (initial_state "/usr/bin"))
                 = Returned ["a.mp3"; "c.mp3"; "b.wav"; "x.ogg"]) by reflexivity.
  split; [exact Hrun|].
  destruct (first_candidate_follows_allow_list_priority
              (steady_world listing) (initial_state "/usr/bin") listing
              "a.mp3" ["c.mp3"; "b.wav"; "x.ogg"] (fun k _ => eq_refl) Hrun)
    as (earlier & ext & later & skipped & remaining & _ & Hl & He & Hs & _).
  exists ext, skipped, remaining. repeat split; assumption.
Defined.

(** ** What the operator reads and what the file holds *)

Lemma segment_entries_length (segs : list Segment) : forall ordinal,
  List.length (segment_entries ordinal segs) = 4 * List.length segs.
Proof.
  induction segs as [|x segs IH]; intro ordinal; [reflexivity|].
  cbn [segment_entries segment_entry app List.length]. rewrite IH. lia.
Qed.

(** X13.  The console and the report after a transcription that gave a
    result.  Before it opens the report file [main] has shown the text,
    the language ("Unknown" when the result has none) and the number of
    segments (0 when the result has no ['segments'] key), whatever the
    output does next.  The line telling where the results were saved is
    printed exactly when the file was opened, written and closed without
    error; then the language and the text in the file are those shown, and
    the number of segments shown is the number of entries in the file:
    it is made of the six head lines, the header if the key is there, and
    four lines per segment.  If the output refuses an operation, the lines
    already shown stay, the error leaves [main] and no save is
    announced. *)
Theorem console_and_report_agree
        (o : Output) (audio_file : string) (r : Result) (s : State) :
  let evs := events_of (report_result_io o audio_file (Some r)) s in
  exists lang n,
    firstn 6 (console evs) =
      [BlankThenRule; TranscriptionSuccessful; Rule; TextIs (res_text r);
       LanguageIs lang; SegmentsCount n] /\
    (res_language r = None -> lang = "Unknown") /\
    (forall l, res_language r = Some l -> lang = l) /\
    (res_segments r = None -> n = 0) /\
    (forall segs, res_segments r = Some segs -> n = List.length segs) /\
    (In (ResultsSavedTo output_file) (console evs) <->
     fst (report_result_io o audio_file (Some r) s) = Returned tt) /\
    (fst (report_result_io o audio_file (Some r) s) = Returned tt ->
     last (console evs) Rule = ResultsSavedTo output_file /\
     In ("Language: " ++ lang ++ PyStr.LF) (written_chunks output_file evs) /\
     In ("Text: " ++ res_text r ++ PyStr.LF) (written_chunks output_file evs) /\
     List.length (written_chunks output_file evs) =
       6 + match res_segments r with Some _ => 1 | None => 0 end + 4 * n).
Proof.
  intro evs. subst evs.
  exists (dict_get (res_language r) "Unknown"),
         (List.length (dict_get (res_segments r) [])).
  rewrite report_result_io_written, report_result_io_outcome, report_result_io_events.
  rewrite console_app, console_map.
  split; [reflexivity|].
  split; [intros ->; reflexivity|].
  split; [intros l ->; reflexivity|].
  split; [intros ->; reflexivity|].
  split; [intros segs ->; reflexivity|].
  destruct (open_error o output_file) as [e|].
  { cbn [console app]. split; [|discriminate]. split; [|discriminate].
    cbn. intuition discriminate. }
  cbn [console]. rewrite console_app, console_writes. cbn [app].
  destruct (close_error o output_file) as [e'|].
  { cbn [console app]. split; [|discriminate]. split; [|discriminate].
    cbn. intuition discriminate. }
  cbn [console].
  destruct (first_refusal o output_file (report_chunks audio_file r)) as [e|] eqn:Hr.
  { cbn [console app]. split; [|discriminate]. split; [|discriminate].
    cbn. intuition discriminate. }
  split.
  { split; [reflexivity|]. intros _. cbn. tauto. }
  intros _. rewrite (accepted_none_refused _ _ _ Hr).
  split; [reflexivity|].
  split; [unfold report_chunks, report_head; apply in_or_app; left; simpl; tauto|].
  split; [unfold report_chunks, report_head; apply in_or_app; left; simpl; tauto|].
  unfold report_chunks. rewrite length_app.
  destruct (res_segments r) as [segs|]; cbn [dict_get List.length report_head].
  - rewrite segment_entries_length. lia.
  - lia.
Qed.

Lemma console_and_report_agree_witness :
  let evs := events_of (report_result_io willing_output "a.mp3" (Some bare_result))
                       (initial_state "/usr/bin") in
  In (ResultsSavedTo output_file) (console evs) /\
  In ("Language: Unknown" ++ PyStr.LF) (written_chunks output_file evs) /\
  ~ In (ResultsSavedTo output_file)
       (console (events_of (report_result_io locked_output "a.mp3" (Some bare_result))
                           (initial_state "/usr/bin"))).
Proof.
  intro evs.
  destruct (console_and_report_agree willing_output "a.mp3" bare_result
              (initial_state "/usr/bin"))
    as (lang & n & _ & Hunknown & _ & _ & _ & Hsaved & Hfile).
  fold evs in Hsaved, Hfile.
  destruct (Hfile eq_refl) as (_ & Hlang & _).
  rewrite (Hunknown eq_refl) in Hlang.
  split; [apply Hsaved; reflexivity|]. split; [exact Hlang|].
  destruct (console_and_report_agree locked_output "a.mp3" bare_result
              (initial_state "/usr/bin"))
    as (_ & _ & _ & _ & _ & _ & _ & Hlocked & _).
  intro Hin. apply Hlocked in Hin. discriminate.
Defined.

(** ** Times that are exact in hundredths *)

Lemma fixed2_whole (negative : bool) (v : Z) :
  PyStr.fixed2 negative (100 * v) = (if negative then "-" else "") ++ PyStr.of_Z v ++ ".00".
Proof.
  unfold PyStr.fixed2.
  rewrite (Z.mul_comm 100 v). rewrite Z.div_mul by lia. rewrite Z.mod_mul by lia.
  reflexivity.
Qed.

(** X14.  A time that is an exact number of hundredths of a second is
    printed exactly, without rounding: when [m * 2^e] is [h] hundredths,
    the text is the one of [h].  In particular a whole number of seconds
    [v] is printed as [v] followed by ".00". *)
Theorem format_2f_prints_exact_hundredths (negative : bool) (m : positive) (e : Z) :
  (forall h,
      (e < 0)%Z -> (100 * Zpos m = h * 2 ^ (- e))%Z ->
      PyStr.format_2f (S754_finite negative m e) = PyStr.fixed2 negative h) /\
  (forall v,
      (e < 0)%Z -> (Zpos m = v * 2 ^ (- e))%Z ->
      PyStr.format_2f (S754_finite negative m e) =
      (if negative then "-" else "") ++ PyStr.of_Z v ++ ".00") /\
  ((0 <= e)%Z ->
   PyStr.format_2f (S754_finite negative m e) =
   (if negative then "-" else "") ++ PyStr.of_Z (Zpos m * 2 ^ e) ++ ".00").
Proof.
  assert (Hexact : forall h,
             (e < 0)%Z -> (100 * Zpos m = h * 2 ^ (- e))%Z ->
             PyStr.hundredths m e = h).
  { intros h He Hh. unfold PyStr.hundredths, PyStr.round_half_even.
    destruct (0 <=? e)%Z eqn:Hle; [apply Z.leb_le in Hle; lia|].
    assert (Hd : (0 < 2 ^ (- e))%Z) by (apply Z.pow_pos_nonneg; lia).
    assert (Hc : (2 * 0 ?= 2 ^ (- e))%Z = Lt) by (apply Z.compare_lt_iff; lia).
    cbv zeta. rewrite Hh. rewrite Z.div_mul by lia. rewrite Z.mod_mul by lia.
    rewrite Hc. reflexivity. }
  split; [|split].
  - intros h He Hh. cbn [PyStr.format_2f]. now rewrite (Hexact h He Hh).
  - intros v He Hv. cbn [PyStr.format_2f].
    rewrite (Hexact (100 * v)%Z He) by (rewrite Hv; ring).
    apply fixed2_whole.
  - intro He. cbn [PyStr.format_2f]. unfold PyStr.hundredths.
    destruct (0 <=? e)%Z eqn:Hle; [|apply Z.leb_gt in Hle; lia].
    rewrite <- Z.mul_assoc. apply fixed2_whole.
Qed.

Lemma format_2f_prints_exact_hundredths_witness :
  PyStr.format_2f (S754_finite false 6755399441055744 (-51)) = "3.00" /\
  PyStr.format_2f two_and_a_half = "2.50".
Proof.
  destruct (format_2f_prints_exact_hundredths false 6755399441055744 (-51))
    as (_ & Hwhole & _).
  destruct (format_2f_prints_exact_hundredths false 5629499534213120 (-51))
    as (Hexact & _ & _).
  split.
  - rewrite (Hwhole 3%Z); [reflexivity|lia|reflexivity].
  - unfold two_and_a_half. rewrite (Hexact 250%Z); [reflexivity|lia|reflexivity].
Defined.

(** ** The test on the search path is a substring test *)

Lemma contains_inside (a needle b : string) : PyStr.contains needle (a ++ needle ++ b) = true.
Proof.
  induction a as [|c a IH].
  - exact (contains_app needle b).
  - rewrite contains_unfold. cbn [append]. rewrite IH. apply orb_true_r.
Qed.

(** X15.  [setup_ffmpeg] looks for the ffmpeg directory anywhere inside
    the text of the search path, not among its entries: whenever the
    directory exists and its name occurs in the path, be it only as a part
    of a longer entry, the function answers [True], prints nothing and
    leaves the path as it is. *)
Theorem setup_ffmpeg_tests_a_substring
        (w : World) (s : State) (size : N) (before after : string) :
  stat w (clock s) (ffmpeg_dir w) = inr size ->
  environ_PATH s = before ++ ffmpeg_dir w ++ after ->
  setup_ffmpeg w s = (Returned true, mkState (S (clock s)) (environ_PATH s) (trace s)).
Proof.
  intros Hstat Hpath.
  rewrite setup_ffmpeg_run, Hstat.
  assert (Hin : PyStr.contains (ffmpeg_dir w) (environ_PATH s) = true)
    by (rewrite Hpath; apply contains_inside).
  rewrite Hin. reflexivity.
Qed.

Lemma setup_ffmpeg_tests_a_substring_witness :
  environ_PATH
    (snd (setup_ffmpeg (steady_world ["a.mp3"])
                       (initial_state "/usr/bin:/opt/ffmpeg/bin-old")))
  = "/usr/bin:/opt/ffmpeg/bin-old".
Proof.
  rewrite (setup_ffmpeg_tests_a_substring
             (steady_world ["a.mp3"]) (initial_state "/usr/bin:/opt/ffmpeg/bin-old")
             2048%N "/usr/bin:" "-old" eq_refl eq_refl).
  reflexivity.
Defined.
